(** * Recipes-API: the authentication handlers of package [handlers]

    A shallow embedding of the sign-in, sign-up, refresh, user-lookup
    handlers and of the authorization middleware, together with the parts
    of the Go standard library ([crypto/sha256], [crypto/hmac], [time]),
    of [github.com/dgrijalva/jwt-go] and of [github.com/gin-gonic/gin]
    whose behaviour the handlers depend on. *)

From Stdlib Require Import ZArith List Bool Lia.
From Stdlib Require Import Strings.String Strings.Ascii Strings.Byte.
Import ListNotations.
Local Open Scope string_scope.
Local Open Scope list_scope.
Local Open Scope Z_scope.

(** ** Bytes and Go strings

    A Go [string] is an immutable sequence of bytes, as is a Rocq [string];
    [[]byte(s)] is [list_byte_of_string s] and [string(b)] is
    [string_of_list_byte b]. *)

Module Bytes.

Definition to_Z (b : byte) : Z := Z.of_N (Byte.to_N b).

Definition of_Z (z : Z) : byte :=
  match Byte.of_N (Z.to_N (z mod 256)) with
  | Some b => b
  | None => x00
  end.

Fixpoint repeat_byte (b : byte) (n : nat) : list byte :=
  match n with
  | O => []
  | S n' => b :: repeat_byte b n'
  end.

Fixpoint eqb (a b : list byte) : bool :=
  match a, b with
  | [], [] => true
  | x :: a', y :: b' => Byte.eqb x y && eqb a' b'
  | _, _ => false
  end.

End Bytes.

(** ** crypto/sha256 (FIPS 180-4)

    32-bit words are [Z] values reduced modulo [2^32]. *)

Module sha256.

Definition w32 (x : Z) : Z := x mod 4294967296.

Definition add32 (x y : Z) : Z := w32 (x + y).

Definition rotr (n x : Z) : Z :=
  Z.lor (Z.shiftr x n) (w32 (Z.shiftl x (32 - n))).

Definition not32 (x : Z) : Z := 4294967295 - x.

Definition Ch (x y z : Z) : Z := Z.lxor (Z.land x y) (Z.land (not32 x) z).

Definition Maj (x y z : Z) : Z :=
  Z.lxor (Z.lxor (Z.land x y) (Z.land x z)) (Z.land y z).

Definition Sigma0 (x : Z) : Z :=
  Z.lxor (Z.lxor (rotr 2 x) (rotr 13 x)) (rotr 22 x).

Definition Sigma1 (x : Z) : Z :=
  Z.lxor (Z.lxor (rotr 6 x) (rotr 11 x)) (rotr 25 x).

Definition sigma0 (x : Z) : Z :=
  Z.lxor (Z.lxor (rotr 7 x) (rotr 18 x)) (Z.shiftr x 3).

Definition sigma1 (x : Z) : Z :=
  Z.lxor (Z.lxor (rotr 17 x) (rotr 19 x)) (Z.shiftr x 10).

(** The round constants are the first 32 bits of the fractional parts
    of the cube roots of the first 64 primes, the initial hash value
    those of the square roots of the first 8. *)
Definition is_prime (n : Z) : bool :=
  (1 <? n)
  && forallb (fun d => negb (n mod Z.of_nat d =? 0))
             (seq 2 (Z.to_nat n - 2)).

Definition primes : list Z :=
  filter is_prime (map Z.of_nat (seq 2 310)).

(** The integer cube root of [x], found bit by bit below [2^bits]. *)
Fixpoint cube_root (bits : nat) (x acc : Z) : Z :=
  match bits with
  | O => acc
  | S b =>
      let next := acc + 2 ^ Z.of_nat b in
      cube_root b x (if next * next * next <=? x then next else acc)
  end.

Definition K : list Z :=
  map (fun p => w32 (cube_root 40 (p * 2 ^ 96) 0)) primes.

Definition H0 : list Z :=
  map (fun p => w32 (Z.sqrt (p * 2 ^ 64))) (firstn 8 primes).

(** The eight working variables [a .. h] and the chaining value. *)
Record state := mkState {
  h0 : Z; h1 : Z; h2 : Z; h3 : Z; h4 : Z; h5 : Z; h6 : Z; h7 : Z
}.

Definition init : state :=
  mkState (nth 0 H0 0) (nth 1 H0 0) (nth 2 H0 0) (nth 3 H0 0)
          (nth 4 H0 0) (nth 5 H0 0) (nth 6 H0 0) (nth 7 H0 0).

(** Big-endian words of a block. *)
Fixpoint words (bs : list byte) : list Z :=
  match bs with
  | a :: b :: c :: d :: rest =>
      (Bytes.to_Z a * 16777216 + Bytes.to_Z b * 65536
       + Bytes.to_Z c * 256 + Bytes.to_Z d) :: words rest
  | _ => []
  end.

(** The message schedule is kept most-recent-first: after [t] words the
    head of the list is [W(t-1)]. *)
Definition next_w (rev_w : list Z) : Z :=
  add32 (add32 (sigma1 (nth 1 rev_w 0)) (nth 6 rev_w 0))
        (add32 (sigma0 (nth 14 rev_w 0)) (nth 15 rev_w 0)).

Fixpoint extend (n : nat) (rev_w : list Z) : list Z :=
  match n with
  | O => rev_w
  | S n' => extend n' (next_w rev_w :: rev_w)
  end.

Definition schedule (block : list byte) : list Z :=
  rev (extend 48 (rev (words block))).

Definition round (s : state) (kw : Z * Z) : state :=
  let t1 := add32 (add32 (add32 (h7 s) (Sigma1 (h4 s)))
                         (add32 (Ch (h4 s) (h5 s) (h6 s)) (fst kw)))
                  (snd kw) in
  let t2 := add32 (Sigma0 (h0 s)) (Maj (h0 s) (h1 s) (h2 s)) in
  mkState (add32 t1 t2) (h0 s) (h1 s) (h2 s)
          (add32 (h3 s) t1) (h4 s) (h5 s) (h6 s).

Definition compress (s : state) (block : list byte) : state :=
  let r := fold_left round (combine K (schedule block)) s in
  mkState (add32 (h0 s) (h0 r)) (add32 (h1 s) (h1 r))
          (add32 (h2 s) (h2 r)) (add32 (h3 s) (h3 r))
          (add32 (h4 s) (h4 r)) (add32 (h5 s) (h5 r))
          (add32 (h6 s) (h6 r)) (add32 (h7 s) (h7 r)).

Definition be_bytes4 (x : Z) : list byte :=
  [ Bytes.of_Z (Z.shiftr x 24); Bytes.of_Z (Z.shiftr x 16);
    Bytes.of_Z (Z.shiftr x 8); Bytes.of_Z x ].

Definition be_bytes8 (x : Z) : list byte :=
  be_bytes4 (Z.shiftr x 32) ++ be_bytes4 x.

(** Padding: a [0x80] byte, zeros up to 56 modulo 64, the bit length on
    eight bytes. *)
Definition pad (msg : list byte) : list byte :=
  let len := Z.of_nat (List.length msg) in
  let zeros := Z.to_nat ((55 - len) mod 64) in
  msg ++ [x80] ++ Bytes.repeat_byte x00 zeros ++ be_bytes8 (8 * len).

Fixpoint blocks (n : nat) (s : state) (bs : list byte) : state :=
  match n with
  | O => s
  | S n' => blocks n' (compress s (firstn 64 bs)) (skipn 64 bs)
  end.

Definition digest_of (s : state) : list byte :=
  be_bytes4 (h0 s) ++ be_bytes4 (h1 s) ++ be_bytes4 (h2 s)
  ++ be_bytes4 (h3 s) ++ be_bytes4 (h4 s) ++ be_bytes4 (h5 s)
  ++ be_bytes4 (h6 s) ++ be_bytes4 (h7 s).

(** [sha256.Sum256]. *)
Definition Sum256 (msg : list byte) : list byte :=
  let p := pad msg in
  digest_of (blocks (List.length p / 64)%nat init p).

Definition Size : nat := 32.
Definition BlockSize : nat := 64.

(** The [hash.Hash] returned by [sha256.New]: the bytes written so far.
    [Write] adds data to the running hash; [Sum b] appends the hash of the
    written data to [b] and returns the resulting slice, leaving the
    hasher unchanged. *)
Record digest := mkDigest { written : list byte }.

Definition New : digest := mkDigest [].

Definition Write (d : digest) (p : list byte) : digest :=
  mkDigest (written d ++ p).

Definition Sum (d : digest) (b : list byte) : list byte :=
  b ++ Sum256 (written d).

End sha256.

(** ** crypto/hmac with SHA-256 (RFC 2104) *)

Module hmac.

Definition xor_pad (pad : Z) (key : list byte) : list byte :=
  map (fun b => Bytes.of_Z (Z.lxor (Bytes.to_Z b) pad)) key.

Definition block_key (key : list byte) : list byte :=
  let k := if (Nat.ltb sha256.BlockSize (List.length key))
           then sha256.Sum256 key else key in
  k ++ Bytes.repeat_byte x00 (sha256.BlockSize - List.length k).

Definition SumSHA256 (key msg : list byte) : list byte :=
  let k := block_key key in
  sha256.Sum256 (xor_pad 0x5c k ++ sha256.Sum256 (xor_pad 0x36 k ++ msg)).

(** [hmac.Equal]: equality of the two MACs (constant time in Go). *)
Definition Equal (a b : list byte) : bool := Bytes.eqb a b.

End hmac.

(** ** Package time

    A [Time] is an instant, in nanoseconds since the Unix epoch; a
    [Duration] is Go's [int64] count of nanoseconds.  Go stores an
    instant as [int64] seconds counted from year 1 and nanoseconds
    within the second; [time.Unix] adds the offset of the Unix epoch to
    its seconds in [int64], and wraps around when the sum does not
    fit. *)

Module time.

Definition Time := Z.
Definition Duration := Z.

Definition Nanosecond : Duration := 1.
Definition Second : Duration := 1000000000 * Nanosecond.
Definition Minute : Duration := 60 * Second.

Definition minDuration : Duration := - 9223372036854775808.
Definition maxDuration : Duration := 9223372036854775807.

Definition int64 (x : Z) : Z :=
  (x + 9223372036854775808) mod 18446744073709551616 - 9223372036854775808.

(** The seconds from year 1 to the Unix epoch. *)
Definition unixToInternal : Z := 62135596800.

(** The instant whose seconds counted from year 1 are
    [sec + unixToInternal] in [int64]. *)
Definition unixTime (sec nsec : Z) : Time :=
  (int64 (sec + unixToInternal) - unixToInternal) * Second + nsec.

(** [time.Unix(sec, nsec)]: nanoseconds outside [0, 1e9) are carried
    into the seconds first. *)
Definition Unix (sec nsec : Z) : Time :=
  let '(sec, nsec) :=
    if (nsec <? 0) || (1000000000 <=? nsec) then
      let n := Z.quot nsec 1000000000 in
      let sec := int64 (sec + n) in
      let nsec := nsec - n * 1000000000 in
      if nsec <? 0 then (int64 (sec - 1), nsec + 1000000000)
      else (sec, nsec)
    else (sec, nsec) in
  unixTime sec nsec.


(** [t.Unix()]: the whole seconds since the epoch, rounded down. *)
Definition ToUnix (t : Time) : Z := t / Second.

(** [t.Add(d)]. *)
Definition Add (t : Time) (d : Duration) : Time := t + d.

(** [t.Sub(u)]: the duration [t - u], or the largest (smallest)
    [Duration] when the difference does not fit. *)
Definition Sub (t u : Time) : Duration :=
  if maxDuration <? t - u then maxDuration
  else if t - u <? minDuration then minDuration
  else t - u.

End time.

(** ** Package models

    Modelled from the spec: the declaration of [models.User] is not among
    the sources; the spec gives a user record as a username and a
    password, both strings, both present in the stored document and in
    the JSON form of the record. *)

Module models.

Record User := mkUser { Username : string; Password : string }.

Definition zero : User := mkUser EmptyString EmptyString.

End models.

(** ** The Mongo collection of users

    The documents of the collection in their natural (insertion) order;
    nothing forbids two documents with the same username.  A filter is a
    [bson.M]: a document matches when every listed field is present with
    the listed value. *)

Module mongo.

Definition Collection := list models.User.

Definition M := list (string * string).

Inductive error :=
| ErrNoDocuments
| ErrOther (msg : string).

Definition field (doc : models.User) (name : string) : option string :=
  if String.eqb name "username" then Some (models.Username doc)
  else if String.eqb name "password" then Some (models.Password doc)
  else None.

Fixpoint matches (filter : M) (doc : models.User) : bool :=
  match filter with
  | [] => true
  | (k, v) :: rest =>
      match field doc k with
      | Some x => String.eqb x v && matches rest doc
      | None => false
      end
  end.

(** The [*mongo.SingleResult] of [FindOne]. *)
Inductive SingleResult :=
| Found (doc : models.User)
| Failed (e : error).

Definition FindOne (coll : Collection) (filter : M) : SingleResult :=
  match find (matches filter) coll with
  | Some doc => Found doc
  | None => Failed ErrNoDocuments
  end.

Definition Err (r : SingleResult) : option error :=
  match r with
  | Found _ => None
  | Failed e => Some e
  end.

(** [r.Decode(&v)]: fills [v] from the document; on a failed result [v]
    is left as it was and the error is returned. *)
Definition Decode (r : SingleResult) (v : models.User)
  : models.User * option error :=
  match r with
  | Found doc => (doc, None)
  | Failed e => (v, Some e)
  end.

(** [InsertOne] appends the document; the in-memory collection never
    fails. *)
Definition InsertOne (coll : Collection) (doc : models.User)
  : Collection * option error :=
  (coll ++ [doc], None).

End mongo.

(** ** The process and its surroundings

    What a handler reads and writes besides its request: the users
    collection, the process environment and the clock.  [clock n] is the
    instant returned by the [n]-th call of [time.Now] since the process
    started. *)

Record World := mkWorld {
  users : mongo.Collection;
  environ : list (string * string);
  clock : nat -> time.Time;
  ticks : nat
}.

Definition with_users (w : World) (coll : mongo.Collection) : World :=
  mkWorld coll (environ w) (clock w) (ticks w).

(** [time.Now()]. *)
Definition time_Now (w : World) : time.Time * World :=
  (clock w (ticks w), mkWorld (users w) (environ w) (clock w) (S (ticks w))).

(** [os.Getenv(key)]: the empty string when the variable is unset. *)
Fixpoint lookup_env (env : list (string * string)) (key : string) : string :=
  match env with
  | [] => EmptyString
  | (k, v) :: rest => if String.eqb k key then v else lookup_env rest key
  end.

Definition os_Getenv (w : World) (key : string) : string :=
  lookup_env (environ w) key.

(** ** Package jwt (github.com/dgrijalva/jwt-go, v3)

    The parts the handlers call: [StandardClaims] and its validation, the
    HS256 signing method, [NewWithClaims], [SignedString] and
    [ParseWithClaims] with the default parser. *)

Module jwt.

(** Plain Go errors, by their text: those built by the package, and
    those the base64 and JSON decoders return to it. *)
Inductive error :=
| New (text : string)
| ExpiredBy (delta : time.Duration).

Definition ErrInvalidKeyType : error := New "key is of invalid type".
Definition ErrSignatureInvalid : error := New "signature is invalid".

Definition ValidationErrorMalformed : Z := Z.shiftl 1 0.
Definition ValidationErrorUnverifiable : Z := Z.shiftl 1 1.
Definition ValidationErrorSignatureInvalid : Z := Z.shiftl 1 2.
Definition ValidationErrorExpired : Z := Z.shiftl 1 4.
Definition ValidationErrorIssuedAt : Z := Z.shiftl 1 5.
Definition ValidationErrorNotValidYet : Z := Z.shiftl 1 7.

Record ValidationError := mkValidationError {
  Inner : option error;
  Errors : Z;
  text : string
}.

Definition NewValidationError (errorText : string) (errorFlags : Z)
  : ValidationError :=
  mkValidationError None errorFlags errorText.

(** [e.valid()]: no error bit is set. *)
Definition valid (e : ValidationError) : bool := Errors e =? 0.

Definition set_error (e : ValidationError) (inner : error) (flag : Z)
  : ValidationError :=
  mkValidationError (Some inner) (Z.lor (Errors e) flag) (text e).

Record StandardClaims := mkStandardClaims {
  Audience : string;
  ExpiresAt : Z;
  Id : string;
  IssuedAt : Z;
  Issuer : string;
  NotBefore : Z;
  Subject : string
}.

Definition verifyExp (exp now : Z) (required : bool) : bool :=
  if exp =? 0 then negb required else now <=? exp.

Definition verifyIat (iat now : Z) (required : bool) : bool :=
  if iat =? 0 then negb required else iat <=? now.

Definition verifyNbf (nbf now : Z) (required : bool) : bool :=
  if nbf =? 0 then negb required else nbf <=? now.

(** The checks of [StandardClaims.Valid] at [now], the Unix seconds read
    from [TimeFunc]. *)
Definition check_at (c : StandardClaims) (now : Z) : ValidationError :=
  let vErr := mkValidationError None 0 EmptyString in
  let vErr :=
    if negb (verifyExp (ExpiresAt c) now false) then
      let delta := time.Sub (time.Unix now 0) (time.Unix (ExpiresAt c) 0) in
      set_error vErr (ExpiredBy delta) ValidationErrorExpired
    else vErr in
  let vErr :=
    if negb (verifyIat (IssuedAt c) now false) then
      set_error vErr (New "Token used before issued") ValidationErrorIssuedAt
    else vErr in
  let vErr :=
    if negb (verifyNbf (NotBefore c) now false) then
      set_error vErr (New "token is not valid yet") ValidationErrorNotValidYet
    else vErr in
  vErr.

(** [StandardClaims.Valid]; [TimeFunc] is [time.Now]. *)
Definition StandardClaims_Valid (c : StandardClaims) (w : World)
  : option ValidationError * World :=
  let (t, w) := time_Now w in
  let now := time.ToUnix t in
  let vErr := check_at c now in
  if valid vErr then (None, w) else (Some vErr, w).

(** The interface [jwt.Claims]. *)
Class Claims (C : Type) := {
  Valid : C -> World -> option ValidationError * World
}.

#[export] Instance StandardClaims_Claims : Claims StandardClaims :=
  {| Valid := StandardClaims_Valid |}.

(** A key as the signing method receives it: an [interface{}] holding a
    byte slice or a string. *)
Inductive Key :=
| KeyBytes (k : list byte)
| KeyString (s : string).

(** [SigningMethodHMAC.Sign] for HS256: only a [[]byte] key is
    accepted. *)
Definition Sign (signingString : list byte) (key : Key)
  : list byte + error :=
  match key with
  | KeyBytes keyBytes => inl (hmac.SumSHA256 keyBytes signingString)
  | _ => inr ErrInvalidKeyType
  end.

(** [SigningMethodHMAC.Verify] for HS256. *)
Definition Verify (signingString signature : list byte) (key : Key)
  : option error :=
  match key with
  | KeyBytes keyBytes =>
      if hmac.Equal signature (hmac.SumSHA256 keyBytes signingString)
      then None else Some ErrSignatureInvalid
  | _ => Some ErrInvalidKeyType
  end.

(** [strings.ToLower] on the letters A to Z. *)
Definition lower (a : ascii) : ascii :=
  let n := nat_of_ascii a in
  if (Nat.leb 65 n && Nat.leb n 90)%bool then ascii_of_nat (n + 32) else a.

Fixpoint ToLower (s : string) : string :=
  match s with
  | EmptyString => EmptyString
  | String a rest => String (lower a) (ToLower rest)
  end.

(** [strings.HasPrefix(strings.ToLower(tokenString), "bearer ")]. *)
Definition has_bearer_prefix (tokenString : string) : bool :=
  String.prefix "bearer " (ToLower tokenString).

Section Tokens.

Context {C : Type} `{Claims C}.

(** A token string, by what [Parser.ParseUnverified] and the signing
    method make of it:
    - [NotCompact]: not three segments separated by dots;
    - [Undecodable raw header64 err]: three segments, but the header or
      the claims segment is not base64url-encoded JSON of the expected
      shape; [err] is the error the base64 or JSON decoder returns, and
      [header64] tells that it is the header segment that is not
      base64url;
    - [Unverifiable raw alg]: header and claims decode, but the header
      names no signing method ([alg] is [None]) or one that is not
      registered;
    - [BadSignature payload signed err]: the header names HS256, the
      claims segment decodes to [payload], and the third segment is not
      base64url: [err] is the decoder's error;
    - [Compact payload signed sig]: the header names HS256, the claims
      segment decodes to [payload], [signed] is the text of the first
      two segments with their dot and [sig] the decoded third segment.
    Tokens that name another registered method are not modelled. *)
Inductive TokenString :=
| NotCompact (raw : string)
| Undecodable (raw : string) (header64 : bool) (err : error)
| Unverifiable (raw : string) (alg : option string)
| BadSignature (payload : C) (signed : list byte) (err : error)
| Compact (payload : C) (signed : list byte) (sig : list byte).

(** [tk_Signature] is the third segment, decoded; it is empty where the
    segment does not decode. *)
Record Token := mkToken {
  tk_Raw : option TokenString;
  tk_Claims : C;
  tk_Signature : list byte;
  tk_Valid : bool
}.

(** [jwt.NewWithClaims(jwt.SigningMethodHS256, claims)]. *)
Definition NewWithClaims (claims : C) : Token :=
  mkToken None claims [] false.

(** The JSON and base64url encoding of header and claims is the work of
    [encoding/json] and [encoding/base64]: [marshal claims] stands for
    the signing string of an HS256 token with these claims. *)
Variable marshal : C -> list byte.

Definition SigningString (t : Token) : list byte := marshal (tk_Claims t).

(** [t.SignedString(key)]. *)
Definition SignedString (t : Token) (key : Key) : TokenString + error :=
  let sstr := SigningString t in
  match Sign sstr key with
  | inl sig => inl (Compact (tk_Claims t) sstr sig)
  | inr err => inr err
  end.

(** [Parser.ParseUnverified]: the token with its claims decoded into the
    destination [claims] (kept as passed when decoding fails), or the
    error. *)
Definition ParseUnverified (tokenString : TokenString) (claims : C)
  : option Token * option ValidationError :=
  match tokenString with
  | NotCompact _ =>
      (None,
       Some (NewValidationError
               "token contains an invalid number of segments"
               ValidationErrorMalformed))
  | Undecodable raw header64 err =>
      (Some (mkToken (Some tokenString) claims [] false),
       Some (if header64 && has_bearer_prefix raw
             then NewValidationError
                    "tokenstring should not contain 'bearer '"
                    ValidationErrorMalformed
             else mkValidationError (Some err)
                    ValidationErrorMalformed EmptyString))
  | Unverifiable _ (Some _) =>
      (Some (mkToken (Some tokenString) claims [] false),
       Some (NewValidationError "signing method (alg) is unavailable."
               ValidationErrorUnverifiable))
  | Unverifiable _ None =>
      (Some (mkToken (Some tokenString) claims [] false),
       Some (NewValidationError "signing method (alg) is unspecified."
               ValidationErrorUnverifiable))
  | BadSignature payload _ _ =>
      (Some (mkToken (Some tokenString) payload [] false), None)
  | Compact payload _ _ =>
      (Some (mkToken (Some tokenString) payload [] false), None)
  end.

Definition signed_part (tokenString : TokenString) : list byte :=
  match tokenString with
  | Compact _ signed _ => signed
  | BadSignature _ signed _ => signed
  | _ => []
  end.

Definition signature_part (tokenString : TokenString) : list byte :=
  match tokenString with
  | Compact _ _ sig => sig
  | _ => []
  end.

(** [token.Method.Verify] on the first two segments and the third: the
    key is checked first, then the third segment is decoded, then the
    MAC is compared. *)
Definition verify_segments (tokenString : TokenString) (key : Key)
  : option error :=
  match tokenString, key with
  | BadSignature _ _ err, KeyBytes _ => Some err
  | _, _ =>
      Verify (signed_part tokenString) (signature_part tokenString) key
  end.

(** [jwt.ParseWithClaims(tokenString, claims, keyFunc)]: the returned
    token (possibly nil) and error. *)
Definition ParseWithClaims (tokenString : TokenString) (claims : C)
    (keyFunc : Token -> Key * option error) (w : World)
  : (option Token * option ValidationError) * World :=
  match ParseUnverified tokenString claims with
  | (token, Some err) => ((token, Some err), w)
  | (None, None) => ((None, None), w)
  | (Some token, None) =>
      match keyFunc token with
      | (_, Some err) =>
          ((Some token,
            Some (mkValidationError (Some err)
                    ValidationErrorUnverifiable EmptyString)), w)
      | (key, None) =>
          let vErr := mkValidationError None 0 EmptyString in
          let (cerr, w) := Valid (tk_Claims token) w in
          let vErr := match cerr with
                      | Some e => e
                      | None => vErr
                      end in
          let token :=
            mkToken (tk_Raw token) (tk_Claims token)
                    (signature_part tokenString) (tk_Valid token) in
          let vErr :=
            match verify_segments tokenString key with
            | Some err =>
                set_error vErr err ValidationErrorSignatureInvalid
            | None => vErr
            end in
          if valid vErr then
            ((Some (mkToken (tk_Raw token) (tk_Claims token)
                            (tk_Signature token) true), None), w)
          else ((Some token, Some vErr), w)
      end
  end.

End Tokens.

Arguments TokenString : clear implicits.
Arguments Token : clear implicits.

End jwt.

(** ** Package handlers: the declarations of the authentication file *)

Record Claims := mkClaims {
  Username : string;
  StandardClaims : jwt.StandardClaims
}.

(** [Claims] embeds [jwt.StandardClaims] and so has its [Valid]. *)
#[export] Instance Claims_Claims : jwt.Claims Claims :=
  {| jwt.Valid := fun c => jwt.StandardClaims_Valid (StandardClaims c) |}.

Record JWTOutput := mkJWTOutput {
  Token : jwt.TokenString Claims;
  Expires : time.Time
}.

(** The text of an error message: a literal of the source or the
    [Error()] of an error value. *)
Inductive message :=
| Literal (s : string)
| BindingError (detail : string)
| SigningError (e : jwt.error)
| ParseError (e : jwt.ValidationError)
| StoreError (e : mongo.error).

(** The values the handlers pass to [c.JSON]. *)
Inductive any :=
| H_error (msg : message)
| OfJWTOutput (o : JWTOutput)
| OfUser (u : models.User).

Module http.
Definition StatusOK : Z := 200.
Definition StatusBadRequest : Z := 400.
Definition StatusUnauthorized : Z := 401.
Definition StatusNotFound : Z := 404.
Definition StatusInternalServerError : Z := 500.
End http.

(** ** Package gin (github.com/gin-gonic/gin)

    The request context with its response writer and the chain of
    handlers of a route. *)

Module gin.

(** What [c.ShouldBindJSON(&user)] makes of the request body. *)
Inductive BindResult :=
| BindOk (user : models.User)
| BindErr (detail : string).

Record Request := mkRequest {
  Authorization : jwt.TokenString Claims;
  Body : BindResult;
  Params : list (string * string)
}.

(** [status] is the status the writer holds, [sent] the status line
    written to the client once the header has been written, [chunks] the
    bodies written after it. *)
Record responseWriter := mkWriter {
  status : Z;
  sent : option Z;
  chunks : list any
}.

Record Context := mkContext {
  Req : Request;
  Writer : responseWriter;
  index : Z
}.

Definition abortIndex : Z := 127 / 2.

Definition int8 (x : Z) : Z := (x + 128) mod 256 - 128.

Definition Written (w : responseWriter) : bool :=
  match sent w with
  | Some _ => true
  | None => false
  end.

Definition WriteHeader (w : responseWriter) (code : Z) : responseWriter :=
  if (0 <? code) && negb (status w =? code)
  then mkWriter code (sent w) (chunks w)
  else w.

Definition WriteHeaderNow (w : responseWriter) : responseWriter :=
  if Written w then w
  else mkWriter (status w) (Some (status w)) (chunks w).

Definition Write (w : responseWriter) (data : any) : responseWriter :=
  let w := WriteHeaderNow w in
  mkWriter (status w) (sent w) (chunks w ++ [data]).

Definition with_writer (c : Context) (w : responseWriter) : Context :=
  mkContext (Req c) w (index c).

Definition with_index (c : Context) (i : Z) : Context :=
  mkContext (Req c) (Writer c) i.

Definition Status (c : Context) (code : Z) : Context :=
  with_writer c (WriteHeader (Writer c) code).

Definition bodyAllowedForStatus (code : Z) : bool :=
  if (100 <=? code) && (code <=? 199) then false
  else if code =? 204 then false
  else if code =? 304 then false
  else true.

(** [c.JSON(code, obj)]. *)
Definition JSON (c : Context) (code : Z) (obj : any) : Context :=
  let c := Status c code in
  if bodyAllowedForStatus code
  then with_writer c (Write (Writer c) obj)
  else with_writer c (WriteHeaderNow (Writer c)).

Definition Abort (c : Context) : Context := with_index c abortIndex.

Definition AbortWithStatus (c : Context) (code : Z) : Context :=
  let c := Status c code in
  let c := with_writer c (WriteHeaderNow (Writer c)) in
  Abort c.

Definition GetHeader_Authorization (c : Context) : jwt.TokenString Claims :=
  Authorization (Req c).

Fixpoint lookup_param (ps : list (string * string)) (key : string) : string :=
  match ps with
  | [] => EmptyString
  | (k, v) :: rest => if String.eqb k key then v else lookup_param rest key
  end.

Definition Param (c : Context) (key : string) : string :=
  lookup_param (Params (Req c)) key.

Definition ShouldBindJSON (c : Context) : BindResult := Body (Req c).

(** A handler runs on the context and the world; it is given [c.Next] of
    the chain it is part of.  [None] is a computation that was cut short
    (the fuel of [Next] ran out, or the index left the chain). *)
Definition Step := Context -> World -> option (Context * World).
Definition HandlerFunc := Step -> Step.

(** The loop of [c.Next], entered after [c.index++]:
    [for c.index < int8(len(c.handlers)) { c.handlers[c.index](c); c.index++ }]. *)
Fixpoint run (fuel : nat) (handlers : list HandlerFunc) (c : Context)
    (w : World) : option (Context * World) :=
  match fuel with
  | O => None
  | S fuel' =>
      if index c <? int8 (Z.of_nat (List.length handlers)) then
        if index c <? 0 then None
        else
          match nth_error handlers (Z.to_nat (index c)) with
          | None => None
          | Some h =>
              let next := fun c' w' =>
                run fuel' handlers (with_index c' (int8 (index c' + 1))) w' in
              match h next c w with
              | None => None
              | Some (c1, w1) =>
                  run fuel' handlers (with_index c1 (int8 (index c1 + 1))) w1
              end
          end
      else Some (c, w)
  end.

(** [c.Next()]. *)
Definition Next (fuel : nat) (handlers : list HandlerFunc) : Step :=
  fun c w => run fuel handlers (with_index c (int8 (index c + 1))) w.

(** [c.reset()]: a fresh writer and the index before the first handler. *)
Definition reset (r : Request) : Context :=
  mkContext r (mkWriter http.StatusOK None []) (-1).

(** The engine serving a request whose route has the chain [handlers]:
    it runs the chain and writes the header if no handler has. *)
Definition ServeHTTP (fuel : nat) (handlers : list HandlerFunc)
    (r : Request) (w : World) : option (Context * World) :=
  match Next fuel handlers (reset r) w with
  | Some (c, w') => Some (with_writer c (WriteHeaderNow (Writer c)), w')
  | None => None
  end.

End gin.

(** ** Package handlers: the authentication handlers *)

Section Handlers.

(** The signing string of a token with the given claims (see
    [jwt.SigningString]). *)
Variable marshal : Claims -> list byte.

Definition no_claims : Claims :=
  mkClaims EmptyString
    (jwt.mkStandardClaims EmptyString 0 EmptyString 0 EmptyString 0 EmptyString).

Definition with_ExpiresAt (claims : Claims) (exp : Z) : Claims :=
  let s := StandardClaims claims in
  mkClaims (Username claims)
    (jwt.mkStandardClaims (jwt.Audience s) exp (jwt.Id s) (jwt.IssuedAt s)
       (jwt.Issuer s) (jwt.NotBefore s) (jwt.Subject s)).

(** The key function both parsing handlers pass to [ParseWithClaims]. *)
Definition keyFunc (w : World) (token : jwt.Token Claims)
  : jwt.Key * option jwt.error :=
  (jwt.KeyBytes (list_byte_of_string (os_Getenv w "JWT_SECRET")), None).

(** [tkn == nil || !tkn.Valid]. *)
Definition nil_or_invalid (tkn : option (jwt.Token Claims)) : bool :=
  match tkn with
  | None => true
  | Some t => negb (jwt.tk_Valid t)
  end.

(** The claims the destination pointer holds after [ParseWithClaims]: the
    token's claims share it. *)
Definition pointee (claims : Claims) (tkn : option (jwt.Token Claims))
  : Claims :=
  match tkn with
  | None => claims
  | Some t => jwt.tk_Claims t
  end.

(** [string(h.Sum([]byte(password)))] for the hasher [h]. *)
Definition password_field (h : sha256.digest) (password : string) : string :=
  string_of_list_byte (sha256.Sum h (list_byte_of_string password)).

Definition SignInHandler : gin.HandlerFunc := fun _ c w =>
  match gin.ShouldBindJSON c with
  | gin.BindErr err =>
      Some (gin.JSON c http.StatusBadRequest (H_error (BindingError err)), w)
  | gin.BindOk user =>
      let h := sha256.New in
      let cur := mongo.FindOne (users w)
                   [ ("username", models.Username user);
                     ("password", password_field h (models.Password user)) ] in
      match mongo.Err cur with
      | Some _ =>
          Some (gin.JSON c http.StatusUnauthorized
                  (H_error (Literal "Invalid username or password")), w)
      | None =>
          let (now, w) := time_Now w in
          let expirationTime := time.Add now (10 * time.Minute) in
          let claims :=
            mkClaims (models.Username user)
              (jwt.mkStandardClaims EmptyString (time.ToUnix expirationTime)
                 EmptyString 0 EmptyString 0 EmptyString) in
          let token := jwt.NewWithClaims claims in
          match jwt.SignedString marshal token
                  (jwt.KeyBytes
                     (list_byte_of_string (os_Getenv w "JWT_SECRET"))) with
          | inr err =>
              Some (gin.JSON c http.StatusInternalServerError
                      (H_error (SigningError err)), w)
          | inl tokenString =>
              let jwtOutput := mkJWTOutput tokenString expirationTime in
              Some (gin.JSON c http.StatusOK (OfJWTOutput jwtOutput), w)
          end
      end
  end.

Definition AuthMiddleware : gin.HandlerFunc := fun Next c w =>
  let tokenValue := gin.GetHeader_Authorization c in
  let claims := no_claims in
  let '((tkn, err), w) :=
    jwt.ParseWithClaims tokenValue claims (keyFunc w) w in
  let c := match err with
           | Some _ => gin.AbortWithStatus c http.StatusUnauthorized
           | None => c
           end in
  let c := if nil_or_invalid tkn
           then gin.AbortWithStatus c http.StatusUnauthorized
           else c in
  Next c w.

Definition RefreshHandler : gin.HandlerFunc := fun _ c w =>
  let tokenValue := gin.GetHeader_Authorization c in
  let claims := no_claims in
  let '((tkn, err), w) :=
    jwt.ParseWithClaims tokenValue claims (keyFunc w) w in
  let claims := pointee claims tkn in
  match err with
  | Some err =>
      Some (gin.JSON c http.StatusUnauthorized (H_error (ParseError err)), w)
  | None =>
      if nil_or_invalid tkn then
        Some (gin.JSON c http.StatusUnauthorized
                (H_error (Literal "Invalid token")), w)
      else
        let (now, w) := time_Now w in
        if 30 * time.Second
           <? time.Sub (time.Unix (jwt.ExpiresAt (StandardClaims claims)) 0) now
        then
          Some (gin.JSON c http.StatusBadRequest
                  (H_error (Literal "Token is not expired yet")), w)
        else
          let (now, w) := time_Now w in
          let expirationTime := time.Add now (5 * time.Minute) in
          let claims := with_ExpiresAt claims (time.ToUnix expirationTime) in
          let token := jwt.NewWithClaims claims in
          match jwt.SignedString marshal token
                  (jwt.KeyString (os_Getenv w "JWT_SECRET")) with
          | inr err =>
              Some (gin.JSON c http.StatusInternalServerError
                      (H_error (SigningError err)), w)
          | inl tokenString =>
              let jwtOutput := mkJWTOutput tokenString expirationTime in
              Some (gin.JSON c http.StatusOK (OfJWTOutput jwtOutput), w)
          end
  end.

Definition SignUpHandler : gin.HandlerFunc := fun _ c w =>
  match gin.ShouldBindJSON c with
  | gin.BindErr err =>
      Some (gin.JSON c http.StatusBadRequest (H_error (BindingError err)), w)
  | gin.BindOk user =>
      let cur := mongo.FindOne (users w)
                   [ ("username", models.Username user) ] in
      match mongo.Err cur with
      | Some mongo.ErrNoDocuments =>
          let h := sha256.New in
          let user :=
            models.mkUser (models.Username user)
              (password_field h (models.Password user)) in
          let (coll, err) := mongo.InsertOne (users w) user in
          let w := with_users w coll in
          match err with
          | Some err =>
              Some (gin.JSON c http.StatusInternalServerError
                      (H_error (StoreError err)), w)
          | None => Some (gin.JSON c http.StatusOK (OfUser user), w)
          end
      | _ =>
          Some (gin.JSON c http.StatusBadRequest
                  (H_error (Literal "Username already exists")), w)
      end
  end.

Definition GetUserHandler : gin.HandlerFunc := fun _ c w =>
  let username := gin.Param c "username" in
  let findResult := mongo.FindOne (users w) [ ("username", username) ] in
  match mongo.Err findResult with
  | Some mongo.ErrNoDocuments =>
      Some (gin.JSON c http.StatusNotFound
              (H_error (Literal "User not found!")), w)
  | _ =>
      let user := models.zero in
      let (user, _) := mongo.Decode findResult user in
      Some (gin.JSON c http.StatusOK (OfUser user), w)
  end.

End Handlers.


(** ** Observations and a small deployment *)

Definition hex_digit (n : Z) : ascii :=
  ascii_of_nat (Z.to_nat (if n <? 10 then 48 + n else 87 + n)).

Fixpoint hex (bs : list byte) : string :=
  match bs with
  | [] => EmptyString
  | b :: r =>
      String (hex_digit (Bytes.to_Z b / 16))
             (String (hex_digit (Bytes.to_Z b mod 16)) (hex r))
  end.

(** What the client has received: the status line, if it was written,
    and the bodies. *)
Definition reply (c : gin.Context) : option Z * list any :=
  (gin.sent (gin.Writer c), gin.chunks (gin.Writer c)).

(** The signing key of the process. *)
Definition secret (w : World) : list byte :=
  list_byte_of_string (os_Getenv w "JWT_SECRET").

(** The world after one reading of the clock. *)
Definition tick (w : World) : World := snd (time_Now w).

(** The error of parsing the token [t] in the world [w], as both parsing
    handlers do. *)
Definition parse_error (w : World) (t : jwt.TokenString Claims)
  : option jwt.ValidationError :=
  snd (fst (jwt.ParseWithClaims t no_claims (keyFunc w) w)).

(** The claims carried by a token string. *)
Definition embedded (t : jwt.TokenString Claims) : option Claims :=
  match t with
  | jwt.Compact payload _ _ => Some payload
  | jwt.BadSignature payload _ _ => Some payload
  | _ => None
  end.

(** The checks of [StandardClaims.Valid] as one boolean. *)
Definition claims_ok (c : jwt.StandardClaims) (now : Z) : bool :=
  jwt.verifyExp (jwt.ExpiresAt c) now false
  && jwt.verifyIat (jwt.IssuedAt c) now false
  && jwt.verifyNbf (jwt.NotBefore c) now false.

(** A stand-in for the serialisation of header and claims, used to run
    the handlers on examples: the username, a dot and the expiry on eight
    bytes. *)
Definition plain_marshal (c : Claims) : list byte :=
  list_byte_of_string (Username c) ++ [x2e]
  ++ sha256.be_bytes8 (jwt.ExpiresAt (StandardClaims c)).

(** A process whose clock reads [t0] first and one millisecond more on
    each of the next three readings. *)
Definition world_at (coll : mongo.Collection) (t0 : time.Time) : World :=
  mkWorld coll [("JWT_SECRET", "s3cret")]
          (fun n => nth n [t0; t0 + 1000000; t0 + 2000000] (t0 + 3000000)) O.

Definition credentials (u p : string) : gin.Request :=
  gin.mkRequest (jwt.NotCompact EmptyString)
                (gin.BindOk (models.mkUser u p)) [].

Definition bearer (t : jwt.TokenString Claims) : gin.Request :=
  gin.mkRequest t (gin.BindErr "EOF") [].

Definition lookup (u : string) : gin.Request :=
  gin.mkRequest (jwt.NotCompact EmptyString) (gin.BindErr "EOF")
                [("username", u)].

(** A handler that ends the chain: it never calls [c.Next]. *)
Definition stop : gin.Step := fun c w => Some (c, w).

(** The token issued for [u] with expiry [exp] (Unix seconds) under the
    key of [w]. *)
Definition issued (w : World) (u : string) (exp : Z)
  : jwt.TokenString Claims :=
  let claims :=
    mkClaims u (jwt.mkStandardClaims EmptyString exp EmptyString 0
                  EmptyString 0 EmptyString) in
  jwt.Compact claims (plain_marshal claims)
    (hmac.SumSHA256 (secret w) (plain_marshal claims)).

(** The outcome of a handler: it returned, the client received the
    status [code] and the single body [obj], and the world is [w']. *)
Definition responds (o : option (gin.Context * World)) (code : Z)
    (obj : any) (w' : World) : Prop :=
  exists c', o = Some (c', w') /\ reply c' = (Some code, [obj]).

(** The usernames of the collection, in order. *)
Definition usernames (coll : mongo.Collection) : list string :=
  map models.Username coll.

Arguments sha256.Sum256 : simpl never.
Arguments hmac.SumSHA256 : simpl never.
Arguments hmac.Equal : simpl never.

(** The collection after alice has signed up with the password pw1. *)
Definition alice_store : mongo.Collection :=
  [ models.mkUser "alice" (password_field sha256.New "pw1") ].

(** The world after parsing the token [t] in [w]. *)
Definition after_parse (w : World) (t : jwt.TokenString Claims) : World :=
  snd (jwt.ParseWithClaims t no_claims (keyFunc w) w).

(** ** The routes of main.go *)

(** The routes of the authentication handlers:
    [POST /signin], [POST /signup], [POST /refresh] and, in the group
    that uses the middleware, [GET /user/:username]. *)
Inductive api := SignIn | SignUp | Refresh | GetUser.

Section Routes.

Variable marshal : Claims -> list byte.

(** The chain of a route, as [main] registers it; the logger and the
    recovery middleware that [gin.Default] puts before every chain write
    nothing to the response and are left out. *)
Definition chain (a : api) : list gin.HandlerFunc :=
  match a with
  | SignIn => [SignInHandler marshal]
  | SignUp => [SignUpHandler]
  | Refresh => [RefreshHandler marshal]
  | GetUser => [AuthMiddleware; GetUserHandler]
  end.

Definition serve (fuel : nat) (a : api) (r : gin.Request) (w : World)
  : option (gin.Context * World) :=
  gin.ServeHTTP fuel (chain a) r w.

(** A sequence of requests served one after the other: the replies and
    the world at the end. *)
Fixpoint serve_all (fuel : nat) (calls : list (api * gin.Request))
    (w : World) : option (list (option Z * list any) * World) :=
  match calls with
  | [] => Some ([], w)
  | (a, r) :: rest =>
      match serve fuel a r w with
      | None => None
      | Some (c, w1) =>
          match serve_all fuel rest w1 with
          | None => None
          | Some (replies, w2) => Some (reply c :: replies, w2)
          end
      end
  end.

End Routes.

(** The credentials a call registers: those of a sign-up call that was
    answered with 200. *)
Definition registration (call : api * gin.Request)
    (rep : option Z * list any) : list models.User :=
  match call with
  | (SignUp, r) =>
      match gin.Body r, fst rep with
      | gin.BindOk user, Some code =>
          if code =? http.StatusOK then [user] else []
      | _, _ => []
      end
  | _ => []
  end.

(** The credentials registered by a sequence of calls with the given
    replies, in order. *)
Fixpoint registrations (calls : list (api * gin.Request))
    (replies : list (option Z * list any)) : list models.User :=
  match calls, replies with
  | call :: calls', rep :: replies' =>
      registration call rep ++ registrations calls' replies'
  | _, _ => []
  end.

(** The record sign-up stores for the credentials [user]. *)
Definition stored (user : models.User) : models.User :=
  models.mkUser (models.Username user)
    (password_field sha256.New (models.Password user)).

(** The password read back from a stored password field: all but its
    last 32 bytes. *)
Definition recover (field : string) : string :=
  let bytes := list_byte_of_string field in
  string_of_list_byte (firstn (List.length bytes - sha256.Size) bytes).

(** The calls of a small session: alice signs up, a second sign-up with
    her name and a sign-up of bob follow, then alice signs in. *)
Definition session : list (api * gin.Request) :=
  [ (SignUp, credentials "alice" "pw1");
    (SignUp, credentials "alice" "pw2");
    (SignUp, credentials "bob" "pw1");
    (SignIn, credentials "alice" "pw1") ].

(** A token for admin carrying the signature of a token for alice. *)
Definition forged (w : World) : jwt.TokenString Claims :=
  let claims :=
    mkClaims "admin"
      (jwt.mkStandardClaims EmptyString 1700000600 EmptyString 0
         EmptyString 0 EmptyString) in
  jwt.Compact claims (plain_marshal claims)
    (jwt.signature_part (issued w "alice" 1700000600)).

(** A process started without JWT_SECRET. *)
Definition bare_world (coll : mongo.Collection) (t0 : time.Time) : World :=
  mkWorld coll [] (fun _ => t0) O.

(** * The recipes handlers of handlers/handler.go *)

(** ** Object identifiers (go.mongodb.org/mongo-driver/bson/primitive) *)

Module primitive.

(** An [ObjectID] is twelve bytes. *)
Definition ObjectID := list byte.

Definition NilObjectID : ObjectID := Bytes.repeat_byte x00 12.

Definition hex_value (a : ascii) : option Z :=
  let n := Z.of_nat (nat_of_ascii a) in
  if (48 <=? n) && (n <=? 57) then Some (n - 48)
  else if (97 <=? n) && (n <=? 102) then Some (n - 87)
  else if (65 <=? n) && (n <=? 70) then Some (n - 55)
  else None.

(** [hex.DecodeString]: pairs of hexadecimal digits, of either case. *)
Fixpoint hex_decode (s : string) : option (list byte) :=
  match s with
  | EmptyString => Some []
  | String a (String b rest) =>
      match hex_value a, hex_value b, hex_decode rest with
      | Some x, Some y, Some l => Some (Bytes.of_Z (16 * x + y) :: l)
      | _, _, _ => None
      end
  | String _ EmptyString => None
  end.

(** [primitive.ObjectIDFromHex]: the nil identifier and an error unless
    the string is 24 hexadecimal digits. *)
Definition ObjectIDFromHex (s : string) : ObjectID * option string :=
  if Nat.eqb (String.length s) 24 then
    match hex_decode s with
    | Some b => (b, None)
    | None => (NilObjectID, Some "encoding/hex: invalid byte")
    end
  else (NilObjectID, Some "the provided hex string is not a valid ObjectID").

(** [id.Hex()]. *)
Definition Hex (id : ObjectID) : string := hex id.

End primitive.

(** ** The recipe record

    Modelled from the spec: the declaration of [models.Recipe] is not
    among the sources; its fields are those the handlers use and that
    [main.go] declares for its own [Recipe]: the identifier, stored as
    [_id], the name, the tags, ingredients and instructions, and the
    time of publication. *)

Record Recipe := mkRecipe {
  ID : primitive.ObjectID;
  Name : string;
  Tags : list string;
  Ingredients : list string;
  Instructions : list string;
  PublishedAt : time.Time
}.

(** ** The recipes collection and the cache *)

Module recipesdb.

Definition Collection := list Recipe.

Definition has_id (id : primitive.ObjectID) (r : Recipe) : bool :=
  Bytes.eqb (ID r) id.

(** A BSON datetime counts milliseconds: a time is stored rounded down
    to the millisecond. *)
Definition datetime (t : time.Time) : time.Time := t / 1000000 * 1000000.

(** The recipe as the collection returns it after it was stored. *)
Definition document (r : Recipe) : Recipe :=
  mkRecipe (ID r) (Name r) (Tags r) (Ingredients r) (Instructions r)
           (datetime (PublishedAt r)).

(** [Find] with the empty filter and a full iteration of the cursor. *)
Definition Find_all (coll : Collection) : list Recipe := coll.

(** [Find] with [{"tags": tag}]: the documents one of whose tags is
    [tag], in the order of the collection. *)
Definition Find_tag (coll : Collection) (tag : string) : list Recipe :=
  filter (fun r => existsb (String.eqb tag) (Tags r)) coll.

(** [InsertOne]: [_id] is unique in a collection; a second document with
    an identifier already present is refused. *)
Definition InsertOne (coll : Collection) (r : Recipe)
  : Collection * option mongo.error :=
  if existsb (has_id (ID r)) coll
  then (coll, Some (mongo.ErrOther "E11000 duplicate key error"))
  else (coll ++ [document r], None).

Fixpoint update_first (id : primitive.ObjectID) (set : Recipe -> Recipe)
    (coll : Collection) : Collection :=
  match coll with
  | [] => []
  | r :: rest =>
      if has_id id r then set r :: rest
      else r :: update_first id set rest
  end.

(** [UpdateOne] with [{"_id": id}] and a [$set]: the first document
    with the identifier is changed; no document is no error. *)
Definition UpdateOne (coll : Collection) (id : primitive.ObjectID)
    (set : Recipe -> Recipe) : Collection * option mongo.error :=
  (update_first id set coll, None).

Fixpoint delete_first (id : primitive.ObjectID) (coll : Collection)
  : Collection * Z :=
  match coll with
  | [] => ([], 0)
  | r :: rest =>
      if has_id id r then (rest, 1)
      else let (rest', n) := delete_first id rest in (r :: rest', n)
  end.

(** [DeleteOne] with [{"_id": id}]: the collection and [DeletedCount]. *)
Definition DeleteOne (coll : Collection) (id : primitive.ObjectID)
  : Collection * Z * option mongo.error :=
  (delete_first id coll, None).

(** [FindOne] with [{"_id": id}]: the document, or [ErrNoDocuments]. *)
Definition FindOne (coll : Collection) (id : primitive.ObjectID)
  : Recipe + mongo.error :=
  match find (has_id id) coll with
  | Some r => inl r
  | None => inr mongo.ErrNoDocuments
  end.

End recipesdb.

Module redis.

(** The keys and values of the database. *)
Definition DB := list (string * string).

Inductive error :=
| Nil
| Other (msg : string).

(** [Get(key).Result()]: [redis.Nil] when the key is absent. *)
Fixpoint Get (db : DB) (key : string) : string * option error :=
  match db with
  | [] => (EmptyString, Some Nil)
  | (k, v) :: rest => if String.eqb k key then (v, None) else Get rest key
  end.

(** [Del(key)]. *)
Definition Del (db : DB) (key : string) : DB :=
  filter (fun kv => negb (String.eqb (fst kv) key)) db.

(** [Set(key, value, 0)]: no expiry. *)
Definition Set_ (db : DB) (key value : string) : DB :=
  (key, value) :: Del db key.

End redis.

(** What the recipes handlers read and write: the collection, the
    cache, the clock, and the identifiers [primitive.NewObjectID] hands
    out, one after the other. *)
Record Kitchen := mkKitchen {
  collection : recipesdb.Collection;
  redisClient : redis.DB;
  kclock : nat -> time.Time;
  kticks : nat;
  oids : nat -> primitive.ObjectID;
  made : nat
}.

Definition with_collection (k : Kitchen) (coll : recipesdb.Collection)
  : Kitchen :=
  mkKitchen coll (redisClient k) (kclock k) (kticks k) (oids k) (made k).

Definition with_redis (k : Kitchen) (db : redis.DB) : Kitchen :=
  mkKitchen (collection k) db (kclock k) (kticks k) (oids k) (made k).

(** [primitive.NewObjectID()]. *)
Definition NewObjectID (k : Kitchen) : primitive.ObjectID * Kitchen :=
  (oids k (made k),
   mkKitchen (collection k) (redisClient k) (kclock k) (kticks k) (oids k)
             (S (made k))).

(** [time.Now()]. *)
Definition kitchen_Now (k : Kitchen) : time.Time * Kitchen :=
  (kclock k (kticks k),
   mkKitchen (collection k) (redisClient k) (kclock k) (S (kticks k))
             (oids k) (made k)).

(** The request of a recipes handler: what the body binds to, the path
    parameter [id] and the query parameter [tag] (empty when absent). *)
Inductive RecipeBind :=
| RecipeOk (recipe : Recipe)
| RecipeErr (detail : string).

Record RecipeRequest := mkRecipeRequest {
  rbody : RecipeBind;
  param_id : string;
  query_tag : string
}.

(** The value a recipes handler passes to [c.JSON]. *)
Inductive rany :=
| R_error (msg : string)
| R_message (msg : string)
| R_recipe (r : Recipe)
| R_recipes (l : list Recipe).

Section Recipes.

(** [json.Marshal] of a list of recipes, as a string, and the list that
    [json.Unmarshal] leaves in an empty slice given the string (it
    ignores nothing the handlers could see: they drop its error). *)
Variable marshal : list Recipe -> string.
Variable unmarshal : string -> list Recipe.

(** Every handler answers once, on the fresh context of its request:
    the status, the body, and the kitchen afterwards. *)
Definition ListRecipesHandler (c : RecipeRequest) (k : Kitchen)
  : Z * rany * Kitchen :=
  let (val, err) := redis.Get (redisClient k) "recipes" in
  match err with
  | Some redis.Nil =>
      let recipes := recipesdb.Find_all (collection k) in
      let data := marshal recipes in
      let k := with_redis k (redis.Set_ (redisClient k) "recipes" data) in
      (http.StatusOK, R_recipes recipes, k)
  | Some (redis.Other msg) =>
      (http.StatusInternalServerError, R_error msg, k)
  | None =>
      let recipes := unmarshal val in
      (http.StatusOK, R_recipes recipes, k)
  end.

Definition clearRecipesFromRedis (k : Kitchen) : Kitchen :=
  with_redis k (redis.Del (redisClient k) "recipes").

Definition error_text (e : mongo.error) : string :=
  match e with
  | mongo.ErrNoDocuments => "mongo: no documents in result"
  | mongo.ErrOther msg => msg
  end.

Definition NewRecipeHandler (c : RecipeRequest) (k : Kitchen)
  : Z * rany * Kitchen :=
  match rbody c with
  | RecipeErr err => (http.StatusBadRequest, R_error err, k)
  | RecipeOk recipe =>
      let (id, k) := NewObjectID k in
      let (now, k) := kitchen_Now k in
      let recipe :=
        mkRecipe id (Name recipe) (Tags recipe) (Ingredients recipe)
                 (Instructions recipe) now in
      let (coll, err) := recipesdb.InsertOne (collection k) recipe in
      let k := with_collection k coll in
      match err with
      | Some _ =>
          (http.StatusInternalServerError,
           R_error "Error while inserting a new recipe", k)
      | None =>
          let k := clearRecipesFromRedis k in
          (http.StatusOK, R_recipe recipe, k)
      end
  end.

Definition SearchRecipeHandler (c : RecipeRequest) (k : Kitchen)
  : Z * rany * Kitchen :=
  let tag := query_tag c in
  let recipes := recipesdb.Find_tag (collection k) tag in
  (http.StatusOK, R_recipes recipes, k).

Definition UpdateRecipeHandler (c : RecipeRequest) (k : Kitchen)
  : Z * rany * Kitchen :=
  let id := param_id c in
  match rbody c with
  | RecipeErr err => (http.StatusBadRequest, R_error err, k)
  | RecipeOk recipe =>
      let (objectId, _) := primitive.ObjectIDFromHex id in
      let (coll, err) :=
        recipesdb.UpdateOne (collection k) objectId
          (fun doc =>
             mkRecipe (ID doc) (Name recipe) (Tags recipe)
                      (Ingredients recipe) (Instructions recipe)
                      (PublishedAt doc)) in
      let k := with_collection k coll in
      match err with
      | Some err => (http.StatusInternalServerError, R_error (error_text err), k)
      | None =>
          let k := clearRecipesFromRedis k in
          (http.StatusOK, R_message "Recipe has been updated", k)
      end
  end.

Definition DeleteRecipeHandler (c : RecipeRequest) (k : Kitchen)
  : Z * rany * Kitchen :=
  let id := param_id c in
  let (objectId, _) := primitive.ObjectIDFromHex id in
  let '(coll, deletedCount, err) :=
    recipesdb.DeleteOne (collection k) objectId in
  let k := with_collection k coll in
  match err with
  | Some err => (http.StatusInternalServerError, R_error (error_text err), k)
  | None =>
      if 0 <? deletedCount then
        let k := clearRecipesFromRedis k in
        (http.StatusOK, R_message "Recipe has been deleted", k)
      else
        (http.StatusOK, R_message "No recipes have been deleted", k)
  end.

Definition GetRecipeHandler (c : RecipeRequest) (k : Kitchen)
  : Z * rany * Kitchen :=
  let id := param_id c in
  let (objectId, _) := primitive.ObjectIDFromHex id in
  match recipesdb.FindOne (collection k) objectId with
  | inr mongo.ErrNoDocuments =>
      (http.StatusInternalServerError,
       R_error ("No match was found for ID " ++ id)%string, k)
  | inr err => (http.StatusInternalServerError, R_error (error_text err), k)
  | inl recipe => (http.StatusOK, R_recipe recipe, k)
  end.

End Recipes.

(** The routes of the recipes handlers in [main]. *)
Inductive recipes_api :=
| ListRecipes | NewRecipe | SearchRecipe | UpdateRecipe | DeleteRecipe
| GetRecipe.

Section RecipesRoutes.

Variable marshal : list Recipe -> string.
Variable unmarshal : string -> list Recipe.

Definition recipes_handler (a : recipes_api)
  : RecipeRequest -> Kitchen -> Z * rany * Kitchen :=
  match a with
  | ListRecipes => ListRecipesHandler marshal unmarshal
  | NewRecipe => NewRecipeHandler
  | SearchRecipe => SearchRecipeHandler
  | UpdateRecipe => UpdateRecipeHandler
  | DeleteRecipe => DeleteRecipeHandler
  | GetRecipe => GetRecipeHandler
  end.

(** The kitchen after a sequence of requests. *)
Fixpoint cook (calls : list (recipes_api * RecipeRequest)) (k : Kitchen)
  : Kitchen :=
  match calls with
  | [] => k
  | (a, c) :: rest => cook rest (snd (recipes_handler a c k))
  end.

(** The cache is coherent when it holds nothing under the key or the
    serialisation of the collection as it is. *)
Definition coherent (k : Kitchen) : Prop :=
  match redis.Get (redisClient k) "recipes" with
  | (val, None) => val = marshal (collection k)
  | (_, Some _) => True
  end.

End RecipesRoutes.

(** The identifiers of the collection, in order. *)
Definition ids (coll : recipesdb.Collection) : list primitive.ObjectID :=
  map ID coll.

(** A kitchen for examples: a collection, an empty cache, a clock that
    reads [t0], identifiers counted from one. *)
Definition oid_of (n : nat) : primitive.ObjectID :=
  Bytes.repeat_byte x00 11 ++ [Bytes.of_Z (Z.of_nat n + 1)].

Definition kitchen_at (coll : recipesdb.Collection) (t0 : time.Time)
  : Kitchen :=
  mkKitchen coll [] (fun _ => t0) O oid_of O.

Definition pasta : Recipe :=
  mkRecipe (oid_of 7) "pasta" ["italian"; "quick"] ["spaghetti"; "salt"]
           ["boil"; "serve"] 1700000000123000000.

(** Stand-ins for the JSON of lists of recipes, used to run the
    handlers on examples: they tell the list with pasta alone from the
    other lists. *)
Definition plain_recipes_marshal (l : list Recipe) : string :=
  match l with
  | [r] => if Bytes.eqb (ID r) (ID pasta) then "[pasta]" else "[]"
  | _ => "[]"
  end.

Definition plain_recipes_unmarshal (s : string) : list Recipe :=
  if String.eqb s "[pasta]" then [pasta] else [].

Definition some_recipe_request : RecipeRequest :=
  mkRecipeRequest (RecipeOk pasta) (primitive.Hex (oid_of 0)) "quick".

(** Requests of a small session: list, create, list, update, delete,
    list. *)
Definition recipes_session : list (recipes_api * RecipeRequest) :=
  [ (ListRecipes, some_recipe_request);
    (NewRecipe, some_recipe_request);
    (ListRecipes, some_recipe_request);
    (UpdateRecipe, some_recipe_request);
    (DeleteRecipe, some_recipe_request);
    (ListRecipes, some_recipe_request) ].

(** * Properties of the libraries *)

Example round_constants :
  List.length sha256.K = 64%nat
  /\ nth 0 sha256.K 0 = 0x428a2f98
  /\ nth 63 sha256.K 0 = 0xc67178f2
  /\ sha256.h0 sha256.init = 0x6a09e667
  /\ sha256.h7 sha256.init = 0x5be0cd19.
Proof. vm_compute. repeat split; reflexivity. Qed.

(** The test vectors of FIPS 180-4 and RFC 4231. *)
Example Sum256_empty :
  hex (sha256.Sum256 [])
  = "e3b0c44298fc1c149afbf4c8996fb92427ae41e4649b934ca495991b7852b855".
Proof. vm_compute. reflexivity. Qed.

Example Sum256_abc :
  hex (sha256.Sum256 (list_byte_of_string "abc"))
  = "ba7816bf8f01cfea414140de5dae2223b00361a396177a9cb410ff61f20015ad".
Proof. vm_compute. reflexivity. Qed.

Example Sum256_two_blocks :
  hex (sha256.Sum256 (list_byte_of_string
         "abcdbcdecdefdefgefghfghighijhijkijkljklmklmnlmnomnopnopq"))
  = "248d6a61d20638b8e5c026930c3e6039a33ce45964ff2167f6ecedd419db06c1".
Proof. vm_compute. reflexivity. Qed.

Example SumSHA256_rfc4231 :
  hex (hmac.SumSHA256 (list_byte_of_string "Jefe")
         (list_byte_of_string "what do ya want for nothing?"))
  = "5bdcc146bf60754e6a042426089575c75a003f089d2739839dec58b964ec3843".
Proof. vm_compute. reflexivity. Qed.

Lemma digest_of_length (s : sha256.state) :
  List.length (sha256.digest_of s) = sha256.Size.
Proof. reflexivity. Qed.

Lemma Sum256_length (msg : list byte) :
  List.length (sha256.Sum256 msg) = sha256.Size.
Proof. unfold sha256.Sum256. apply digest_of_length. Qed.

(** A fresh hasher has hashed nothing: [Sum] appends the digest of the
    empty message to its argument. *)
Lemma Sum_New (b : list byte) :
  sha256.Sum sha256.New b = b ++ sha256.Sum256 [].
Proof. reflexivity. Qed.

(** The digest of a message is obtained by writing it first. *)
Lemma Sum_Write_New (p : list byte) :
  sha256.Sum (sha256.Write sha256.New p) [] = sha256.Sum256 p.
Proof. reflexivity. Qed.

Lemma Sum_New_length (b : list byte) :
  List.length (sha256.Sum sha256.New b) = (List.length b + sha256.Size)%nat.
Proof. rewrite Sum_New, length_app, Sum256_length. reflexivity. Qed.

Lemma Bytes_eqb_refl (a : list byte) : Bytes.eqb a a = true.
Proof.
  induction a as [|x a IH]; simpl; [reflexivity|].
  rewrite (Byte.byte_dec_lb eq_refl), IH. reflexivity.
Qed.

Lemma Bytes_eqb_eq (a b : list byte) : Bytes.eqb a b = true -> a = b.
Proof.
  revert b. induction a as [|x a IH]; intros [|y b] E; simpl in E;
    try discriminate; [reflexivity|].
  apply andb_prop in E. destruct E as [E1 E2].
  f_equal; [apply Byte.byte_dec_bl; exact E1 | apply IH; exact E2].
Qed.

(** Saturation does not change a comparison with a duration. *)
Lemma Sub_ltb (d : time.Duration) (t u : time.Time) :
  time.minDuration <= d < time.maxDuration ->
  (d <? time.Sub t u) = (d <? t - u).
Proof.
  unfold time.Sub, time.minDuration, time.maxDuration. intros Hd.
  destruct (Z.ltb_spec 9223372036854775807 (t - u));
    [|destruct (Z.ltb_spec (t - u) (-9223372036854775808))];
    repeat match goal with
           | |- context [?a <? ?b] => destruct (Z.ltb_spec a b)
           end; try reflexivity; lia.
Qed.

Lemma ToUnix_bounds (t : time.Time) :
  time.ToUnix t * time.Second <= t < time.ToUnix t * time.Second + time.Second.
Proof.
  unfold time.ToUnix, time.Second, time.Nanosecond.
  change (1000000000 * 1) with 1000000000.
  pose proof (Z.div_mod t 1000000000 ltac:(lia)).
  pose proof (Z.mod_pos_bound t 1000000000 ltac:(lia)). lia.
Qed.


(** ** The collection *)

Lemma matches_username (u : string) (doc : models.User) :
  mongo.matches [("username", u)] doc = String.eqb (models.Username doc) u.
Proof. simpl. apply andb_true_r. Qed.

Lemma matches_credentials (u p : string) (doc : models.User) :
  mongo.matches [("username", u); ("password", p)] doc
  = String.eqb (models.Username doc) u && String.eqb (models.Password doc) p.
Proof. simpl. rewrite andb_true_r. reflexivity. Qed.

Lemma FindOne_none (coll : mongo.Collection) (filter : mongo.M) :
  (forall doc, In doc coll -> mongo.matches filter doc = false) ->
  mongo.FindOne coll filter = mongo.Failed mongo.ErrNoDocuments.
Proof.
  intros H. unfold mongo.FindOne.
  destruct (find (mongo.matches filter) coll) as [doc|] eqn:E; [|reflexivity].
  apply find_some in E. destruct E as [Hin Hm].
  rewrite (H doc Hin) in Hm. discriminate.
Qed.

Lemma FindOne_found (coll : mongo.Collection) (filter : mongo.M)
    (doc : models.User) :
  mongo.FindOne coll filter = mongo.Found doc ->
  In doc coll /\ mongo.matches filter doc = true.
Proof.
  unfold mongo.FindOne.
  destruct (find (mongo.matches filter) coll) as [d|] eqn:E; [|discriminate].
  intros [= <-]. apply find_some. exact E.
Qed.

Lemma FindOne_some (coll : mongo.Collection) (filter : mongo.M)
    (doc : models.User) :
  In doc coll -> mongo.matches filter doc = true ->
  exists d, mongo.FindOne coll filter = mongo.Found d.
Proof.
  intros Hin Hm. unfold mongo.FindOne.
  destruct (find (mongo.matches filter) coll) as [d|] eqn:E.
  - exists d. reflexivity.
  - rewrite (find_none _ _ E doc Hin) in Hm. discriminate.
Qed.

Lemma FindOne_app (coll more : mongo.Collection) (filter : mongo.M)
    (doc : models.User) :
  mongo.FindOne coll filter = mongo.Found doc ->
  mongo.FindOne (coll ++ more) filter = mongo.Found doc.
Proof.
  unfold mongo.FindOne. induction coll as [|d coll IH]; simpl; [discriminate|].
  destruct (mongo.matches filter d); [trivial | exact IH].
Qed.

(** With unique usernames a lookup by username finds the record itself. *)
Lemma FindOne_unique (coll : mongo.Collection) (doc : models.User) :
  NoDup (map models.Username coll) -> In doc coll ->
  mongo.FindOne coll [("username", models.Username doc)] = mongo.Found doc.
Proof.
  unfold mongo.FindOne. induction coll as [|d coll IH]; simpl; [tauto|].
  intros Hnd [-> | Hin].
  - rewrite String.eqb_refl. reflexivity.
  - inversion Hnd as [|? ? Hnotin Hnd']; subst.
    destruct (String.eqb_spec (models.Username d) (models.Username doc)) as [E|E].
    + exfalso. apply Hnotin. rewrite E. apply in_map. exact Hin.
    + simpl. apply IH; assumption.
Qed.

(** ** Validation and parsing of tokens *)

Lemma valid_set_error (e : jwt.ValidationError) (inner : jwt.error)
    (flag : Z) :
  flag <> 0 -> jwt.valid (jwt.set_error e inner flag) = false.
Proof.
  intros Hf. unfold jwt.valid, jwt.set_error. simpl.
  apply Z.eqb_neq. intros H0. apply Z.lor_eq_0_iff in H0. tauto.
Qed.

Lemma valid_check_at (c : jwt.StandardClaims) (now : Z) :
  jwt.valid (jwt.check_at c now) = claims_ok c now.
Proof.
  unfold jwt.check_at, claims_ok.
  destruct (jwt.verifyExp _ _ _), (jwt.verifyIat _ _ _),
    (jwt.verifyNbf _ _ _); simpl; try reflexivity;
    apply valid_set_error; discriminate.
Qed.

Lemma check_at_ok (c : jwt.StandardClaims) (now : Z) :
  claims_ok c now = true ->
  jwt.check_at c now = jwt.mkValidationError None 0 EmptyString.
Proof.
  unfold jwt.check_at, claims_ok.
  destruct (jwt.verifyExp _ _ _), (jwt.verifyIat _ _ _),
    (jwt.verifyNbf _ _ _); simpl; intros E; try discriminate; reflexivity.
Qed.

(** An expiry that is set and lies before [now] sets the Expired bit. *)
Lemma check_at_expired (c : jwt.StandardClaims) (now : Z) :
  jwt.ExpiresAt c <> 0 -> jwt.ExpiresAt c < now ->
  Z.land (jwt.Errors (jwt.check_at c now)) jwt.ValidationErrorExpired
  = jwt.ValidationErrorExpired.
Proof.
  intros Hz Hlt. unfold jwt.check_at, jwt.verifyExp.
  destruct (Z.eqb_spec (jwt.ExpiresAt c) 0); [contradiction|].
  destruct (Z.leb_spec now (jwt.ExpiresAt c)); [lia|].
  destruct (jwt.verifyIat _ _ _), (jwt.verifyNbf _ _ _); reflexivity.
Qed.

Lemma claims_ok_spec (c : jwt.StandardClaims) (now : Z) :
  claims_ok c now = true <->
  (jwt.ExpiresAt c = 0 \/ now <= jwt.ExpiresAt c)
  /\ (jwt.IssuedAt c = 0 \/ jwt.IssuedAt c <= now)
  /\ (jwt.NotBefore c = 0 \/ jwt.NotBefore c <= now).
Proof.
  unfold claims_ok, jwt.verifyExp, jwt.verifyIat, jwt.verifyNbf.
  rewrite !andb_true_iff.
  destruct (Z.eqb_spec (jwt.ExpiresAt c) 0), (Z.eqb_spec (jwt.IssuedAt c) 0),
    (Z.eqb_spec (jwt.NotBefore c) 0); simpl; rewrite ?Z.leb_le;
    intuition lia.
Qed.

(** Parsing a three-segment HS256 token reads the clock once; it succeeds
    when the claims are valid at that second and the signature is the MAC
    of the signed text under the key of the process. *)
Lemma ParseWithClaims_Compact (w : World) (payload dest : Claims)
    (signed sig : list byte) :
  let t := jwt.Compact payload signed sig in
  let now := time.ToUnix (clock w (ticks w)) in
  jwt.ParseWithClaims t dest (keyFunc w) w
  = if claims_ok (StandardClaims payload) now
       && hmac.Equal sig (hmac.SumSHA256 (secret w) signed)
    then ((Some (jwt.mkToken (Some t) payload sig true), None), tick w)
    else
      let vErr := jwt.check_at (StandardClaims payload) now in
      let vErr :=
        if hmac.Equal sig (hmac.SumSHA256 (secret w) signed) then vErr
        else jwt.set_error vErr jwt.ErrSignatureInvalid
               jwt.ValidationErrorSignatureInvalid in
      ((Some (jwt.mkToken (Some t) payload sig false), Some vErr), tick w).
Proof.
  intros t now. unfold jwt.ParseWithClaims, keyFunc. simpl.
  unfold jwt.StandardClaims_Valid. simpl. fold now.
  fold (secret w). unfold tick. simpl.
  rewrite valid_check_at.
  destruct (claims_ok (StandardClaims payload) now) eqn:Hc; simpl.
  - destruct (hmac.Equal sig (hmac.SumSHA256 (secret w) signed)) eqn:Hs;
      simpl; [reflexivity|].
    rewrite (check_at_ok _ _ Hc). reflexivity.
  - destruct (hmac.Equal sig (hmac.SumSHA256 (secret w) signed)) eqn:Hs;
      simpl.
    + rewrite valid_check_at, Hc. reflexivity.
    + rewrite valid_set_error by discriminate. reflexivity.
Qed.

(** * The handlers *)

(** ** Password fields *)

Lemma password_field_New (password : string) :
  list_byte_of_string (password_field sha256.New password)
  = list_byte_of_string password ++ sha256.Sum256 [].
Proof.
  unfold password_field. rewrite list_byte_of_string_of_list_byte.
  apply Sum_New.
Qed.

Lemma password_field_New_length (password : string) :
  List.length (list_byte_of_string (password_field sha256.New password))
  = (List.length (list_byte_of_string password) + sha256.Size)%nat.
Proof. rewrite password_field_New, length_app, Sum256_length. reflexivity. Qed.

(** The stored field is the digest of the password only for the empty
    password. *)
Lemma password_field_New_digest (password : string) :
  password_field sha256.New password
  = string_of_list_byte (sha256.Sum256 (list_byte_of_string password)) ->
  password = EmptyString.
Proof.
  intros E. apply (f_equal list_byte_of_string) in E.
  apply (f_equal (@List.length byte)) in E.
  rewrite password_field_New_length in E.
  rewrite list_byte_of_string_of_list_byte, Sum256_length in E.
  destruct password as [|a s]; [reflexivity|].
  unfold list_byte_of_string in E. simpl in E. lia.
Qed.

(** ** Sign-in *)

Section HandlerFacts.

Variable marshal : Claims -> list byte.

Lemma SignIn_no_match (next : gin.Step) (c : gin.Context) (w : World)
    (user : models.User) :
  gin.ShouldBindJSON c = gin.BindOk user ->
  (forall doc, In doc (users w) ->
     models.Username doc = models.Username user ->
     models.Password doc
     <> password_field sha256.New (models.Password user)) ->
  SignInHandler marshal next c w
  = Some (gin.JSON c http.StatusUnauthorized
            (H_error (Literal "Invalid username or password")), w).
Proof.
  intros Hb Hno. unfold SignInHandler. rewrite Hb.
  rewrite FindOne_none; [reflexivity|].
  intros doc Hin. rewrite matches_credentials.
  destruct (String.eqb_spec (models.Username doc) (models.Username user))
    as [E|E]; [|reflexivity].
  simpl. apply String.eqb_neq. apply Hno; assumption.
Qed.

Lemma SignIn_match (next : gin.Step) (c : gin.Context) (w : World)
    (user doc : models.User) :
  gin.ShouldBindJSON c = gin.BindOk user ->
  In doc (users w) ->
  models.Username doc = models.Username user ->
  models.Password doc = password_field sha256.New (models.Password user) ->
  let expirationTime := time.Add (clock w (ticks w)) (10 * time.Minute) in
  let claims :=
    mkClaims (models.Username user)
      (jwt.mkStandardClaims EmptyString (time.ToUnix expirationTime)
         EmptyString 0 EmptyString 0 EmptyString) in
  let tokenString :=
    jwt.Compact claims (marshal claims)
      (hmac.SumSHA256 (secret w) (marshal claims)) in
  SignInHandler marshal next c w
  = Some (gin.JSON c http.StatusOK
            (OfJWTOutput (mkJWTOutput tokenString expirationTime)), tick w).
Proof.
  intros Hb Hin Hu Hp. unfold SignInHandler. rewrite Hb.
  destruct (FindOne_some (users w)
              [("username", models.Username user);
               ("password",
                password_field sha256.New (models.Password user))] doc Hin)
    as [d Hd].
  { rewrite matches_credentials, Hu, Hp, !String.eqb_refl. reflexivity. }
  rewrite Hd. reflexivity.
Qed.

End HandlerFacts.

(** C6: on one store, a sign-in with a registered username and a wrong
    password and a sign-in with an unregistered username receive the same
    reply, status 401 with the error "Invalid username or password", and
    both leave the world as it was. *)
Theorem C6_signin_failures_indistinguishable
    (marshal : Claims -> list byte) (next1 next2 : gin.Step)
    (r1 r2 : gin.Request) (w : World) (u1 p1 u2 p2 : string) :
  gin.Body r1 = gin.BindOk (models.mkUser u1 p1) ->
  gin.Body r2 = gin.BindOk (models.mkUser u2 p2) ->
  In u1 (usernames (users w)) ->
  (forall doc, In doc (users w) -> models.Username doc = u1 ->
     models.Password doc <> password_field sha256.New p1) ->
  ~ In u2 (usernames (users w)) ->
  exists c1 c2,
    SignInHandler marshal next1 (gin.reset r1) w = Some (c1, w)
    /\ SignInHandler marshal next2 (gin.reset r2) w = Some (c2, w)
    /\ reply c1 = reply c2
    /\ reply c1
       = (Some http.StatusUnauthorized,
          [H_error (Literal "Invalid username or password")]).
Proof.
  intros Hb1 Hb2 _ Hwrong Hunknown.
  exists (gin.JSON (gin.reset r1) http.StatusUnauthorized
            (H_error (Literal "Invalid username or password"))).
  exists (gin.JSON (gin.reset r2) http.StatusUnauthorized
            (H_error (Literal "Invalid username or password"))).
  repeat split.
  - apply SignIn_no_match with (user := models.mkUser u1 p1);
      [exact Hb1 | exact Hwrong].
  - apply SignIn_no_match with (user := models.mkUser u2 p2);
      [exact Hb2|].
    intros doc Hin Hu. exfalso. apply Hunknown.
    simpl in Hu. rewrite <- Hu. apply in_map. exact Hin.
Qed.

Lemma C6_witness :
  let w := world_at alice_store 0 in
  exists c1 c2,
    SignInHandler plain_marshal stop (gin.reset (credentials "alice" "pw2")) w
    = Some (c1, w)
    /\ SignInHandler plain_marshal stop (gin.reset (credentials "bob" "pw1")) w
       = Some (c2, w)
    /\ reply c1 = reply c2
    /\ reply c1
       = (Some http.StatusUnauthorized,
          [H_error (Literal "Invalid username or password")]).
Proof.
  apply (C6_signin_failures_indistinguishable plain_marshal stop stop
           (credentials "alice" "pw2") (credentials "bob" "pw1")
           (world_at alice_store 0) "alice" "pw2" "bob" "pw1").
  - reflexivity.
  - reflexivity.
  - simpl. left. reflexivity.
  - intros doc [<- | []] _. vm_compute. discriminate.
  - simpl. intros [E | []]. discriminate.
Defined.

(** ** Sign-up *)

Lemma SignUp_taken (next : gin.Step) (c : gin.Context) (w : World)
    (user : models.User) :
  gin.ShouldBindJSON c = gin.BindOk user ->
  In (models.Username user) (usernames (users w)) ->
  SignUpHandler next c w
  = Some (gin.JSON c http.StatusBadRequest
            (H_error (Literal "Username already exists")), w).
Proof.
  intros Hb Hin. unfold SignUpHandler. rewrite Hb.
  apply in_map_iff in Hin. destruct Hin as [doc [Hu Hin]].
  destruct (FindOne_some (users w) [("username", models.Username user)]
              doc Hin) as [d Hd].
  { rewrite matches_username, Hu. apply String.eqb_refl. }
  rewrite Hd. reflexivity.
Qed.

Lemma SignUp_fresh (next : gin.Step) (c : gin.Context) (w : World)
    (user : models.User) :
  gin.ShouldBindJSON c = gin.BindOk user ->
  ~ In (models.Username user) (usernames (users w)) ->
  let stored :=
    models.mkUser (models.Username user)
      (password_field sha256.New (models.Password user)) in
  SignUpHandler next c w
  = Some (gin.JSON c http.StatusOK (OfUser stored),
          with_users w (users w ++ [stored])).
Proof.
  intros Hb Hnot. unfold SignUpHandler. rewrite Hb.
  rewrite FindOne_none; [reflexivity|].
  intros doc Hin. rewrite matches_username. apply String.eqb_neq.
  intros E. apply Hnot. rewrite <- E. apply in_map. exact Hin.
Qed.

(** Sign-up keeps the usernames of the collection distinct. *)
Lemma SignUp_keeps_usernames_distinct (next : gin.Step) (c c' : gin.Context)
    (w w' : World) :
  NoDup (usernames (users w)) ->
  SignUpHandler next c w = Some (c', w') ->
  NoDup (usernames (users w')).
Proof.
  intros Hnd. unfold SignUpHandler.
  destruct (gin.ShouldBindJSON c) as [user|e]; [|intros [= _ <-]; exact Hnd].
  destruct (mongo.FindOne (users w) [("username", models.Username user)])
    as [d|[|msg]] eqn:Hf; simpl; try (intros [= _ <-]; exact Hnd).
  intros [= _ <-]. simpl. unfold usernames. rewrite map_app. simpl.
  apply NoDup_app; [exact Hnd | constructor; [tauto | constructor] |].
  intros u Hin [<- | []].
  apply in_map_iff in Hin. destruct Hin as [doc [Hu Hin]].
  unfold mongo.FindOne in Hf.
  destruct (find _ (users w)) eqn:Hfi; [discriminate|].
  pose proof (find_none _ _ Hfi doc Hin) as Hm.
  rewrite matches_username, Hu, String.eqb_refl in Hm. discriminate.
Qed.

(** C8: when the collection holds a record with the given username,
    sign-up replies 400 with the error "Username already exists" and the
    world, its collection included, is unchanged. *)
Theorem C8_signup_taken_leaves_store (next : gin.Step) (r : gin.Request)
    (w : World) (user : models.User) :
  gin.Body r = gin.BindOk user ->
  (exists doc, In doc (users w)
               /\ models.Username doc = models.Username user) ->
  responds (SignUpHandler next (gin.reset r) w) http.StatusBadRequest
           (H_error (Literal "Username already exists")) w.
Proof.
  intros Hb [doc [Hin Hu]].
  eexists. split.
  - apply SignUp_taken with (user := user); [exact Hb|].
    rewrite <- Hu. apply in_map. exact Hin.
  - reflexivity.
Qed.

Lemma C8_witness :
  responds
    (SignUpHandler stop (gin.reset (credentials "alice" "pw2"))
       (world_at alice_store 0))
    http.StatusBadRequest (H_error (Literal "Username already exists"))
    (world_at alice_store 0).
Proof.
  apply (C8_signup_taken_leaves_store stop (credentials "alice" "pw2")
           (world_at alice_store 0) (models.mkUser "alice" "pw2")).
  - reflexivity.
  - exists (models.mkUser "alice" (password_field sha256.New "pw1")).
    split; [left; reflexivity | reflexivity].
Defined.

(** C4: after a sign-up of (username, password) that replied 200, a
    sign-in with the same username and password, on that collection or on
    one with later registrations added, replies 200 with a token whose
    claims carry the username. *)
Theorem C4_signup_then_signin (marshal : Claims -> list byte)
    (next1 next2 : gin.Step) (r1 r2 : gin.Request) (c1 : gin.Context)
    (w w1 w2 : World) (u p : string) (more : mongo.Collection) :
  gin.Body r1 = gin.BindOk (models.mkUser u p) ->
  SignUpHandler next1 (gin.reset r1) w = Some (c1, w1) ->
  fst (reply c1) = Some http.StatusOK ->
  gin.Body r2 = gin.BindOk (models.mkUser u p) ->
  users w2 = users w1 ++ more ->
  exists o payload,
    responds (SignInHandler marshal next2 (gin.reset r2) w2)
             http.StatusOK (OfJWTOutput o) (tick w2)
    /\ embedded (Token o) = Some payload
    /\ Username payload = u.
Proof.
  intros Hb1 Hup Hok Hb2 Hext.
  destruct (in_dec string_dec u (usernames (users w))) as [Hin | Hnot].
  - rewrite (SignUp_taken next1 (gin.reset r1) w (models.mkUser u p) Hb1 Hin)
      in Hup.
    injection Hup as <- _. discriminate Hok.
  - rewrite (SignUp_fresh next1 (gin.reset r1) w (models.mkUser u p) Hb1 Hnot)
      in Hup.
    injection Hup as _ <-. simpl in Hext.
    eexists. eexists. split; [eexists; split|split].
    + apply SignIn_match
        with (user := models.mkUser u p)
             (doc := models.mkUser u (password_field sha256.New p));
        [exact Hb2 | | reflexivity | reflexivity].
      rewrite Hext. apply in_or_app. left. apply in_or_app. right.
      left. reflexivity.
    + reflexivity.
    + reflexivity.
    + reflexivity.
Qed.

Lemma C4_witness :
  exists o payload,
    responds
      (SignInHandler plain_marshal stop (gin.reset (credentials "alice" "pw1"))
         (world_at alice_store 0))
      http.StatusOK (OfJWTOutput o) (tick (world_at alice_store 0))
    /\ embedded (Token o) = Some payload
    /\ Username payload = "alice".
Proof.
  apply (C4_signup_then_signin plain_marshal stop stop
           (credentials "alice" "pw1") (credentials "alice" "pw1")
           (gin.JSON (gin.reset (credentials "alice" "pw1")) http.StatusOK
              (OfUser (models.mkUser "alice"
                         (password_field sha256.New "pw1"))))
           (world_at [] 0) (world_at alice_store 0) (world_at alice_store 0)
           "alice" "pw1" []).
  - reflexivity.
  - vm_compute. reflexivity.
  - vm_compute. reflexivity.
  - reflexivity.
  - vm_compute. reflexivity.
Defined.

(** The outcomes of sign-in on a request whose body binds. *)
Lemma SignIn_outcome (marshal : Claims -> list byte) (next : gin.Step)
    (c : gin.Context) (w : World) (user : models.User) :
  gin.ShouldBindJSON c = gin.BindOk user ->
  let expirationTime := time.Add (clock w (ticks w)) (10 * time.Minute) in
  let claims :=
    mkClaims (models.Username user)
      (jwt.mkStandardClaims EmptyString (time.ToUnix expirationTime)
         EmptyString 0 EmptyString 0 EmptyString) in
  let tokenString :=
    jwt.Compact claims (marshal claims)
      (hmac.SumSHA256 (secret w) (marshal claims)) in
  SignInHandler marshal next c w
  = Some (gin.JSON c http.StatusUnauthorized
            (H_error (Literal "Invalid username or password")), w)
  \/ SignInHandler marshal next c w
     = Some (gin.JSON c http.StatusOK
               (OfJWTOutput (mkJWTOutput tokenString expirationTime)),
             tick w).
Proof.
  intros Hb. simpl. unfold SignInHandler. rewrite Hb.
  destruct (mongo.FindOne _ _) as [d|e]; [right | left]; reflexivity.
Qed.

(** C9, as the code has it: a sign-in that replies 200 returns an expiry
    exactly 10 minutes after the instant read from the clock, and the
    expiry in the token's claims is that instant in whole Unix seconds,
    rounded down: it is at most the returned expiry and less than one
    second before it. *)
Theorem C9_signin_expiry (marshal : Claims -> list byte) (next : gin.Step)
    (r : gin.Request) (w w' : World) (c' : gin.Context) :
  SignInHandler marshal next (gin.reset r) w = Some (c', w') ->
  fst (reply c') = Some http.StatusOK ->
  exists o payload,
    snd (reply c') = [OfJWTOutput o]
    /\ Expires o = time.Add (clock w (ticks w)) (10 * time.Minute)
    /\ embedded (Token o) = Some payload
    /\ jwt.ExpiresAt (StandardClaims payload) = time.ToUnix (Expires o)
    /\ jwt.ExpiresAt (StandardClaims payload) * time.Second <= Expires o
       < jwt.ExpiresAt (StandardClaims payload) * time.Second + time.Second.
Proof.
  intros Hrun Hok.
  destruct (gin.Body r) as [user|e] eqn:Hb.
  - destruct (SignIn_outcome marshal next (gin.reset r) w user Hb)
      as [E | E]; rewrite E in Hrun; injection Hrun as <- <-.
    + discriminate Hok.
    + eexists. eexists. repeat split; try reflexivity;
        apply ToUnix_bounds.
  - unfold SignInHandler in Hrun. unfold gin.ShouldBindJSON in Hrun.
    simpl in Hrun. rewrite Hb in Hrun. injection Hrun as <- <-.
    discriminate Hok.
Qed.

Lemma C9_witness :
  exists o payload,
    [OfJWTOutput
       (mkJWTOutput (issued (world_at alice_store 1500000000) "alice" 601)
          601500000000)]
    = [OfJWTOutput o]
    /\ Expires o = 601500000000
    /\ embedded (Token o) = Some payload
    /\ jwt.ExpiresAt (StandardClaims payload) = time.ToUnix (Expires o)
    /\ jwt.ExpiresAt (StandardClaims payload) * time.Second <= Expires o
       < jwt.ExpiresAt (StandardClaims payload) * time.Second + time.Second.
Proof.
  apply (C9_signin_expiry plain_marshal stop (credentials "alice" "pw1")
           (world_at alice_store 1500000000)
           (tick (world_at alice_store 1500000000))
           (gin.JSON (gin.reset (credentials "alice" "pw1")) http.StatusOK
              (OfJWTOutput
                 (mkJWTOutput
                    (issued (world_at alice_store 1500000000) "alice" 601)
                    601500000000)))).
  - vm_compute. reflexivity.
  - vm_compute. reflexivity.
Defined.

(** C9, as stated, fails: with the clock at 1.5 s the returned expiry is
    601.5 s while the claims carry 601 s. *)
Lemma C9_counterexample :
  let w := world_at alice_store 1500000000 in
  exists c' o payload,
    SignInHandler plain_marshal stop (gin.reset (credentials "alice" "pw1")) w
    = Some (c', tick w)
    /\ reply c' = (Some http.StatusOK, [OfJWTOutput o])
    /\ embedded (Token o) = Some payload
    /\ Expires o = time.Add (clock w (ticks w)) (10 * time.Minute)
    /\ time.Unix (jwt.ExpiresAt (StandardClaims payload)) 0 <> Expires o.
Proof.
  exists (gin.JSON (gin.reset (credentials "alice" "pw1")) http.StatusOK
            (OfJWTOutput
               (mkJWTOutput
                  (issued (world_at alice_store 1500000000) "alice" 601)
                  601500000000))).
  exists (mkJWTOutput (issued (world_at alice_store 1500000000) "alice" 601)
            601500000000).
  eexists.
  split; [vm_compute; reflexivity|].
  split; [vm_compute; reflexivity|].
  split; [reflexivity|].
  split; [vm_compute; reflexivity|].
  vm_compute. discriminate.
Qed.

(** ** User lookup *)

Lemma GetUser_absent (next : gin.Step) (c : gin.Context) (w : World) :
  ~ In (gin.Param c "username") (usernames (users w)) ->
  GetUserHandler next c w
  = Some (gin.JSON c http.StatusNotFound
            (H_error (Literal "User not found!")), w).
Proof.
  intros Hnot. unfold GetUserHandler.
  rewrite FindOne_none; [reflexivity|].
  intros doc Hin. rewrite matches_username. apply String.eqb_neq.
  intros E. apply Hnot. rewrite <- E. apply in_map. exact Hin.
Qed.

Lemma GetUser_present (next : gin.Step) (c : gin.Context) (w : World) :
  In (gin.Param c "username") (usernames (users w)) ->
  exists doc,
    In doc (users w)
    /\ models.Username doc = gin.Param c "username"
    /\ GetUserHandler next c w
       = Some (gin.JSON c http.StatusOK (OfUser doc), w).
Proof.
  intros Hin. apply in_map_iff in Hin. destruct Hin as [d [Hu Hin]].
  destruct (FindOne_some (users w) [("username", gin.Param c "username")]
              d Hin) as [doc Hdoc].
  { rewrite matches_username, Hu. apply String.eqb_refl. }
  exists doc. destruct (FindOne_found _ _ _ Hdoc) as [Hin' Hm].
  rewrite matches_username in Hm. apply String.eqb_eq in Hm.
  repeat split; [exact Hin' | exact Hm |].
  unfold GetUserHandler. rewrite Hdoc. reflexivity.
Qed.

(** C10: on a collection whose usernames are distinct, a lookup of the
    username of a stored record replies 200 with that record, its stored
    password field included; and on any collection the lookup replies
    404 exactly when no record has the username. *)
Theorem C10_get_user (next : gin.Step) (r : gin.Request) (w : World) :
  NoDup (usernames (users w)) ->
  (forall doc, In doc (users w) ->
     gin.Param (gin.reset r) "username" = models.Username doc ->
     responds (GetUserHandler next (gin.reset r) w) http.StatusOK
              (OfUser (models.mkUser (models.Username doc)
                         (models.Password doc))) w)
  /\ (responds (GetUserHandler next (gin.reset r) w) http.StatusNotFound
               (H_error (Literal "User not found!")) w
      <-> ~ In (gin.Param (gin.reset r) "username") (usernames (users w))).
Proof.
  intros Hnd. split; [|split].
  - intros doc Hin Hp. eexists. split.
    + unfold GetUserHandler. rewrite Hp.
      rewrite (FindOne_unique _ _ Hnd Hin). reflexivity.
    + destruct doc. reflexivity.
  - intros [c' [Hrun Hreply]] Hin.
    destruct (GetUser_present next (gin.reset r) w Hin)
      as [doc [_ [_ E]]].
    rewrite E in Hrun. injection Hrun as <-. discriminate Hreply.
  - intros Hnot. eexists. split.
    + apply GetUser_absent. exact Hnot.
    + reflexivity.
Qed.

Lemma C10_witness :
  responds
    (GetUserHandler stop (gin.reset (lookup "alice")) (world_at alice_store 0))
    http.StatusOK
    (OfUser (models.mkUser "alice" (password_field sha256.New "pw1")))
    (world_at alice_store 0).
Proof.
  refine (proj1 (C10_get_user stop (lookup "alice") (world_at alice_store 0) _)
            (models.mkUser "alice" (password_field sha256.New "pw1")) _ _).
  - simpl. constructor; [intros [] | constructor].
  - left. reflexivity.
  - reflexivity.
Defined.

(** C3, at the password pw1: sign-up stores, and sign-in looks up, the
    password bytes followed by the SHA-256 digest of the empty message,
    not the digest of the password; a record that holds the digest of the
    password is not matched by sign-in. *)
Theorem C3_password_field_at_pw1 :
  let stored := password_field sha256.New "pw1" in
  let digest := string_of_list_byte (sha256.Sum256 (list_byte_of_string "pw1")) in
  option_map (fun cw => users (snd cw))
    (SignUpHandler stop (gin.reset (credentials "alice" "pw1")) (world_at [] 0))
  = Some [models.mkUser "alice" stored]
  /\ list_byte_of_string stored
     = list_byte_of_string "pw1" ++ sha256.Sum256 []
  /\ hex (list_byte_of_string stored)
     = "707731e3b0c44298fc1c149afbf4c8996fb92427ae41e4649b934ca495991b7852b855"
  /\ hex (list_byte_of_string digest)
     = "c592df4a86933b92addc9842402ddf198c638ea9be58916ee6e3734e1e3152f8"
  /\ option_map (fun cw => reply (fst cw))
       (SignInHandler plain_marshal stop (gin.reset (credentials "alice" "pw1"))
          (world_at [models.mkUser "alice" digest] 0))
     = Some (Some http.StatusUnauthorized,
             [H_error (Literal "Invalid username or password")]).
Proof.
  split; [vm_compute; reflexivity|].
  split; [apply password_field_New|].
  split; [vm_compute; reflexivity|].
  split; vm_compute; reflexivity.
Qed.

(** ** Parsing as the handlers do it *)

(** A token whose third segment does not decode is parsed like a
    three-segment HS256 token with a wrong signature, with the decoder's
    error in place of the signing method's. *)
Lemma ParseWithClaims_BadSignature (w : World) (payload dest : Claims)
    (signed : list byte) (err : jwt.error) :
  let t := jwt.BadSignature payload signed err in
  let now := time.ToUnix (clock w (ticks w)) in
  jwt.ParseWithClaims t dest (keyFunc w) w
  = ((Some (jwt.mkToken (Some t) payload [] false),
      Some (jwt.set_error (jwt.check_at (StandardClaims payload) now) err
              jwt.ValidationErrorSignatureInvalid)),
     tick w).
Proof.
  intros t now. unfold jwt.ParseWithClaims, keyFunc. simpl.
  unfold jwt.StandardClaims_Valid. simpl. fold now.
  unfold tick. simpl.
  rewrite valid_check_at.
  destruct (claims_ok (StandardClaims payload) now) eqn:Hc; simpl.
  - rewrite (check_at_ok _ _ Hc). reflexivity.
  - rewrite valid_set_error by discriminate. reflexivity.
Qed.

Lemma parse_error_None (w : World) (t : jwt.TokenString Claims) :
  parse_error w t = None ->
  exists payload signed sig,
    t = jwt.Compact payload signed sig
    /\ claims_ok (StandardClaims payload)
         (time.ToUnix (clock w (ticks w))) = true
    /\ sig = hmac.SumSHA256 (secret w) signed
    /\ jwt.ParseWithClaims t no_claims (keyFunc w) w
       = ((Some (jwt.mkToken (Some t) payload sig true), None), tick w).
Proof.
  unfold parse_error.
  destruct t as [raw|raw h64 err|raw [alg|]|payload signed err
                |payload signed sig];
    try (simpl; discriminate).
  { rewrite ParseWithClaims_BadSignature. simpl. discriminate. }
  rewrite ParseWithClaims_Compact.
  destruct (claims_ok _ _) eqn:Hc; simpl;
    destruct (hmac.Equal _ _) eqn:Hs; simpl; try discriminate.
  intros _. exists payload, signed, sig.
  repeat split; [exact Hc | apply Bytes_eqb_eq; exact Hs].
Qed.

Lemma parse_error_Some (w : World) (t : jwt.TokenString Claims)
    (e : jwt.ValidationError) :
  parse_error w t = Some e ->
  exists tkn,
    jwt.ParseWithClaims t no_claims (keyFunc w) w
    = ((tkn, Some e), after_parse w t)
    /\ nil_or_invalid tkn = true.
Proof.
  unfold parse_error, after_parse.
  destruct t as [raw|raw h64 err|raw [alg|]|payload signed err
                |payload signed sig];
    try (simpl; intros [= <-]; eexists; split; reflexivity).
  { rewrite ParseWithClaims_BadSignature. simpl. intros [= <-].
    eexists. split; reflexivity. }
  rewrite ParseWithClaims_Compact.
  destruct (claims_ok _ _ && hmac.Equal _ _); simpl; [discriminate|].
  intros [= <-]. eexists. split; reflexivity.
Qed.

(** Parsing changes nothing but the count of clock readings. *)
Lemma after_parse_users (w : World) (t : jwt.TokenString Claims) :
  users (after_parse w t) = users w
  /\ environ (after_parse w t) = environ w.
Proof.
  unfold after_parse.
  destruct t as [raw|raw h64 err|raw [alg|]|payload signed err
                |payload signed sig];
    try (split; reflexivity).
  { rewrite ParseWithClaims_BadSignature. split; reflexivity. }
  rewrite ParseWithClaims_Compact.
  destruct (claims_ok _ _ && hmac.Equal _ _); split; reflexivity.
Qed.

(** The errors of the parser on token strings that it cannot decode or
    verify. *)
Lemma parse_error_Undecodable (w : World) (raw : string) (header64 : bool)
    (err : jwt.error) :
  parse_error w (jwt.Undecodable raw header64 err)
  = Some (if header64 && jwt.has_bearer_prefix raw
          then jwt.mkValidationError None jwt.ValidationErrorMalformed
                 "tokenstring should not contain 'bearer '"
          else jwt.mkValidationError (Some err)
                 jwt.ValidationErrorMalformed EmptyString).
Proof. reflexivity. Qed.

Lemma parse_error_Unverifiable (w : World) (raw : string)
    (alg : option string) :
  parse_error w (jwt.Unverifiable raw alg)
  = Some (jwt.mkValidationError None jwt.ValidationErrorUnverifiable
            (match alg with
             | Some _ => "signing method (alg) is unavailable."
             | None => "signing method (alg) is unspecified."
             end)).
Proof. destruct alg; reflexivity. Qed.

Lemma parse_error_BadSignature (w : World) (payload : Claims)
    (signed : list byte) (err : jwt.error) :
  exists e,
    parse_error w (jwt.BadSignature payload signed err) = Some e
    /\ jwt.Inner e = Some err
    /\ Z.land (jwt.Errors e) jwt.ValidationErrorSignatureInvalid
       = jwt.ValidationErrorSignatureInvalid.
Proof.
  unfold parse_error. rewrite ParseWithClaims_BadSignature.
  eexists. split; [reflexivity|]. split; [reflexivity|].
  unfold jwt.set_error. cbn [jwt.Errors].
  apply Z.bits_inj'. intros n _. rewrite Z.land_spec, Z.lor_spec.
  destruct (Z.testbit jwt.ValidationErrorSignatureInvalid n);
    [rewrite orb_true_r | rewrite andb_false_r]; reflexivity.
Qed.

Example has_bearer_prefix_mixed_case :
  jwt.has_bearer_prefix "Bearer e30.e30.e30" = true
  /\ jwt.has_bearer_prefix "e30.e30.e30" = false.
Proof. split; reflexivity. Qed.

(** ** Refresh *)

Lemma Refresh_parsed (marshal : Claims -> list byte) (next : gin.Step)
    (c : gin.Context) (w : World) (payload : Claims) :
  parse_error w (gin.GetHeader_Authorization c) = None ->
  embedded (gin.GetHeader_Authorization c) = Some payload ->
  RefreshHandler marshal next c w
  = if 30 * time.Second
       <? time.Unix (jwt.ExpiresAt (StandardClaims payload)) 0
          - clock w (S (ticks w))
    then Some (gin.JSON c http.StatusBadRequest
                 (H_error (Literal "Token is not expired yet")),
               tick (tick w))
    else Some (gin.JSON c http.StatusInternalServerError
                 (H_error (SigningError jwt.ErrInvalidKeyType)),
               tick (tick (tick w))).
Proof.
  intros Hp He.
  destruct (parse_error_None _ _ Hp) as [p [signed [sig [Ht [_ [_ Hparse]]]]]].
  rewrite Ht in He. injection He as ->.
  unfold RefreshHandler. rewrite Hparse. simpl.
  rewrite Sub_ltb by (vm_compute; split; [discriminate | reflexivity]).
  destruct (_ <? _); reflexivity.
Qed.

(** C1, as the code has it: for a token that parses and has at most 30
    seconds left, refresh passes the secret to the signing method as a
    string, signing fails on the key type, and the reply is 500 with the
    signing error; no token is returned. *)
Theorem C1_refresh_in_window_fails_to_sign (marshal : Claims -> list byte)
    (next : gin.Step) (r : gin.Request) (w : World) (payload : Claims) :
  parse_error w (gin.Authorization r) = None ->
  embedded (gin.Authorization r) = Some payload ->
  time.Unix (jwt.ExpiresAt (StandardClaims payload)) 0
  - clock w (S (ticks w)) <= 30 * time.Second ->
  responds (RefreshHandler marshal next (gin.reset r) w)
           http.StatusInternalServerError
           (H_error (SigningError jwt.ErrInvalidKeyType))
           (tick (tick (tick w))).
Proof.
  intros Hp He Httl. eexists. split.
  - rewrite (Refresh_parsed marshal next (gin.reset r) w payload Hp He).
    destruct (Z.ltb_spec (30 * time.Second)
                (time.Unix (jwt.ExpiresAt (StandardClaims payload)) 0
                 - clock w (S (ticks w)))); [lia | reflexivity].
  - reflexivity.
Qed.

Lemma C1_witness :
  let w := world_at alice_store (1700000000 * time.Second) in
  responds
    (RefreshHandler plain_marshal stop
       (gin.reset (bearer (issued w "alice" 1700000020))) w)
    http.StatusInternalServerError
    (H_error (SigningError jwt.ErrInvalidKeyType))
    (tick (tick (tick w))).
Proof.
  refine (C1_refresh_in_window_fails_to_sign plain_marshal stop
            (bearer (issued (world_at alice_store (1700000000 * time.Second))
                       "alice" 1700000020))
            (world_at alice_store (1700000000 * time.Second))
            _ _ _ _).
  - vm_compute. reflexivity.
  - reflexivity.
  - vm_compute. discriminate.
Defined.




(** ** Parsing and expiry *)

(** C2, as the code has it: for a three-segment token signed with the
    secret of the process, parsing succeeds exactly when the standard
    claims are valid at the second the parser reads from the clock: the
    expiry is unset (0) or not before it, and issued-at and not-before
    are unset or not after it.  A token whose expiry is set and in the
    past is rejected with the Expired bit: the parse operation checks
    expiry itself. *)
Theorem C2_parse_checks_expiry (w : World) (payload : Claims)
    (signed : list byte) :
  let t := jwt.Compact payload signed (hmac.SumSHA256 (secret w) signed) in
  let now := time.ToUnix (clock w (ticks w)) in
  let c := StandardClaims payload in
  (parse_error w t = None <->
   (jwt.ExpiresAt c = 0 \/ now <= jwt.ExpiresAt c)
   /\ (jwt.IssuedAt c = 0 \/ jwt.IssuedAt c <= now)
   /\ (jwt.NotBefore c = 0 \/ jwt.NotBefore c <= now))
  /\ (jwt.ExpiresAt c <> 0 /\ jwt.ExpiresAt c < now ->
      exists e,
        parse_error w t = Some e
        /\ Z.land (jwt.Errors e) jwt.ValidationErrorExpired
           = jwt.ValidationErrorExpired).
Proof.
  intros t now c.
  assert (Hparse : parse_error w t
                   = if claims_ok c now then None
                     else Some (jwt.check_at c now)).
  { unfold parse_error, t. rewrite ParseWithClaims_Compact.
    unfold hmac.Equal. rewrite Bytes_eqb_refl, andb_true_r.
    fold now. fold c. destruct (claims_ok c now); reflexivity. }
  split.
  - rewrite Hparse, <- claims_ok_spec.
    destruct (claims_ok c now); split; intros E;
      try reflexivity; discriminate.
  - intros [Hz Hlt]. exists (jwt.check_at c now). split.
    + rewrite Hparse.
      destruct (claims_ok c now) eqn:Hc; [|reflexivity].
      apply claims_ok_spec in Hc. lia.
    + apply check_at_expired; assumption.
Qed.

(** C2, as stated, fails: a token for alice, signed with the secret,
    with expiry 1000 s, is rejected as expired when the clock reads
    2000 s. *)
Lemma C2_counterexample :
  let w := world_at alice_store (2000 * time.Second) in
  let t := issued w "alice" 1000 in
  jwt.Verify (jwt.signed_part t) (jwt.signature_part t)
             (jwt.KeyBytes (secret w)) = None
  /\ option_map (fun p => jwt.ExpiresAt (StandardClaims p)) (embedded t)
     = Some 1000
  /\ time.ToUnix (clock w (ticks w)) = 2000
  /\ parse_error w t
     = Some (jwt.mkValidationError
               (Some (jwt.ExpiredBy (1000 * time.Second)))
               jwt.ValidationErrorExpired EmptyString).
Proof.
  split; [vm_compute; reflexivity|].
  split; [vm_compute; reflexivity|].
  split; vm_compute; reflexivity.
Qed.


(** ** The authorization middleware *)

Lemma AbortWithStatus_twice (c : gin.Context) (code : Z) :
  gin.AbortWithStatus (gin.AbortWithStatus c code) code
  = gin.AbortWithStatus c code.
Proof.
  destruct c as [r [st [s|] ch] i];
    unfold gin.AbortWithStatus, gin.Abort, gin.Status, gin.WriteHeader,
      gin.WriteHeaderNow, gin.Written, gin.with_writer, gin.with_index;
    simpl;
    destruct (0 <? code) eqn:Hpos; simpl;
    destruct (st =? code) eqn:Hst; simpl;
    rewrite ?Hpos, ?Z.eqb_refl, ?Hst; simpl; reflexivity.
Qed.

(** On a token that does not parse the middleware aborts with 401 and
    then calls [c.Next] on the aborted context. *)
Lemma AuthMiddleware_rejects (next : gin.Step) (c : gin.Context) (w : World)
    (e : jwt.ValidationError) :
  parse_error w (gin.GetHeader_Authorization c) = Some e ->
  AuthMiddleware next c w
  = next (gin.AbortWithStatus c http.StatusUnauthorized)
         (after_parse w (gin.GetHeader_Authorization c)).
Proof.
  intros Hp. destruct (parse_error_Some _ _ _ Hp) as [tkn [Hparse Hinv]].
  unfold AuthMiddleware. rewrite Hparse, Hinv.
  rewrite AbortWithStatus_twice. reflexivity.
Qed.

(** On a token that parses it calls [c.Next] on the context as it is. *)
Lemma AuthMiddleware_admits (next : gin.Step) (c : gin.Context) (w : World) :
  parse_error w (gin.GetHeader_Authorization c) = None ->
  AuthMiddleware next c w = next c (tick w).
Proof.
  intros Hp.
  destruct (parse_error_None _ _ Hp) as [p [signed [sig [_ [_ [_ Hparse]]]]]].
  unfold AuthMiddleware. rewrite Hparse. reflexivity.
Qed.

(** ** The chain of handlers *)

Lemma int8_small (n : nat) :
  (n < 63)%nat -> gin.int8 (Z.of_nat n) = Z.of_nat n.
Proof.
  intros Hn. unfold gin.int8.
  rewrite Z.mod_small by lia. lia.
Qed.

(** One turn of the loop of [c.Next]: the handler at the index runs with
    [c.Next] of the same chain, then the index advances. *)
Lemma run_step (fuel : nat) (handlers : list gin.HandlerFunc)
    (c : gin.Context) (w : World) (h : gin.HandlerFunc) :
  0 <= gin.index c < gin.int8 (Z.of_nat (List.length handlers)) ->
  nth_error handlers (Z.to_nat (gin.index c)) = Some h ->
  gin.run (S fuel) handlers c w
  = match h (gin.Next fuel handlers) c w with
    | None => None
    | Some (c1, w1) =>
        gin.run fuel handlers
          (gin.with_index c1 (gin.int8 (gin.index c1 + 1))) w1
    end.
Proof.
  intros [Hlo Hhi] Hnth. cbn [gin.run].
  destruct (Z.ltb_spec (gin.index c)
              (gin.int8 (Z.of_nat (List.length handlers)))); [|lia].
  destruct (Z.ltb_spec (gin.index c) 0); [lia|].
  rewrite Hnth. reflexivity.
Qed.

(** The loop ends when the index has reached the end of the chain. *)
Lemma run_done (fuel : nat) (handlers : list gin.HandlerFunc)
    (c : gin.Context) (w : World) :
  gin.int8 (Z.of_nat (List.length handlers)) <= gin.index c ->
  gin.run (S fuel) handlers c w = Some (c, w).
Proof.
  intros Hge. cbn [gin.run].
  destruct (Z.ltb_spec (gin.index c)
              (gin.int8 (Z.of_nat (List.length handlers)))); [lia|].
  reflexivity.
Qed.

(** [c.Next] on an aborted context runs no handler: the index has passed
    the end of any chain gin accepts (fewer than 63 handlers). *)
Lemma Next_aborted (fuel : nat) (handlers : list gin.HandlerFunc)
    (c : gin.Context) (w : World) :
  (List.length handlers < 63)%nat ->
  gin.Next (S fuel) handlers (gin.Abort c) w
  = Some (gin.with_index c (gin.abortIndex + 1), w).
Proof.
  intros Hlen. unfold gin.Next.
  rewrite run_done.
  - destruct c; reflexivity.
  - rewrite (int8_small _ Hlen).
    change (gin.index _) with 64. lia.
Qed.

(** A rejected request: the middleware at the head of the chain leaves
    the context aborted, whatever follows it. *)
Lemma ServeHTTP_rejected (fuel : nat) (rest : list gin.HandlerFunc)
    (r : gin.Request) (w : World) (e : jwt.ValidationError) :
  (List.length (AuthMiddleware :: rest) < 63)%nat ->
  parse_error w (gin.Authorization r) = Some e ->
  gin.ServeHTTP (S (S fuel)) (AuthMiddleware :: rest) r w
  = Some (gin.mkContext r
            (gin.mkWriter http.StatusUnauthorized
               (Some http.StatusUnauthorized) [])
            (gin.abortIndex + 2),
          after_parse w (gin.Authorization r)).
Proof.
  intros Hlen Hp. unfold gin.ServeHTTP, gin.Next.
  set (hs := AuthMiddleware :: rest) in *.
  set (c0 := gin.with_index (gin.reset r)
               (gin.int8 (gin.index (gin.reset r) + 1))).
  rewrite (run_step (S fuel) hs c0 w AuthMiddleware).
  - rewrite (AuthMiddleware_rejects (gin.Next (S fuel) hs) c0 w e Hp).
    change (gin.AbortWithStatus c0 http.StatusUnauthorized)
      with (gin.Abort
              (gin.mkContext r
                 (gin.mkWriter http.StatusUnauthorized
                    (Some http.StatusUnauthorized) []) 0)).
    rewrite (Next_aborted fuel hs _ _ Hlen).
    rewrite run_done.
    + reflexivity.
    + rewrite (int8_small _ Hlen). change (gin.index _) with 65. lia.
  - rewrite (int8_small _ Hlen). change (gin.index c0) with 0.
    subst hs. simpl List.length. lia.
  - reflexivity.
Qed.

(** The same at any position of any chain: when the loop of [c.Next]
    reaches the middleware with a token that does not parse, the loop
    ends with the context aborted, and no handler after it has run. *)
Lemma run_at_gate (fuel : nat) (handlers : list gin.HandlerFunc)
    (c : gin.Context) (w : World) (e : jwt.ValidationError) :
  (List.length handlers < 63)%nat ->
  0 <= gin.index c < Z.of_nat (List.length handlers) ->
  nth_error handlers (Z.to_nat (gin.index c)) = Some AuthMiddleware ->
  parse_error w (gin.GetHeader_Authorization c) = Some e ->
  gin.run (S (S fuel)) handlers c w
  = Some (gin.with_index (gin.AbortWithStatus c http.StatusUnauthorized)
            (gin.abortIndex + 2),
          after_parse w (gin.GetHeader_Authorization c)).
Proof.
  intros Hlen Hidx Hnth Hp.
  rewrite (run_step (S fuel) handlers c w AuthMiddleware);
    [|rewrite (int8_small _ Hlen); exact Hidx | exact Hnth].
  rewrite (AuthMiddleware_rejects (gin.Next (S fuel) handlers) c w e Hp).
  change (gin.AbortWithStatus c http.StatusUnauthorized)
    with (gin.Abort
            (gin.with_writer
               (gin.Status c http.StatusUnauthorized)
               (gin.WriteHeaderNow
                  (gin.Writer (gin.Status c http.StatusUnauthorized))))).
  rewrite (Next_aborted fuel handlers _ _ Hlen).
  rewrite run_done; [reflexivity|].
  rewrite (int8_small _ Hlen). change (gin.index _) with 65. lia.
Qed.

(** C5: on a protected route, whose chain is the middleware followed by
    the handlers of the route, a request whose Authorization token does
    not parse receives 401 with no body, and the outcome is the same
    whatever the handlers after the middleware are: none of them runs.
    The world changes at most by the parser's clock reading. *)
Theorem C5_gate_stops_chain (fuel : nat) (rest : list gin.HandlerFunc)
    (r : gin.Request) (w : World) (e : jwt.ValidationError) :
  (2 <= fuel)%nat ->
  (List.length (AuthMiddleware :: rest) < 63)%nat ->
  parse_error w (gin.Authorization r) = Some e ->
  gin.ServeHTTP fuel (AuthMiddleware :: rest) r w
  = Some (gin.mkContext r
            (gin.mkWriter http.StatusUnauthorized
               (Some http.StatusUnauthorized) [])
            (gin.abortIndex + 2),
          after_parse w (gin.Authorization r))
  /\ users (after_parse w (gin.Authorization r)) = users w.
Proof.
  intros Hfuel Hlen Hp. split; [|apply after_parse_users].
  destruct fuel as [|[|fuel]]; try lia.
  apply ServeHTTP_rejected with (e := e); assumption.
Qed.

Lemma C5_witness :
  let w := world_at alice_store (2000 * time.Second) in
  let r := gin.mkRequest (issued w "alice" 1000) (gin.BindErr "EOF")
             [("username", "alice")] in
  gin.ServeHTTP 2 [AuthMiddleware; GetUserHandler] r w
  = Some (gin.mkContext r
            (gin.mkWriter http.StatusUnauthorized
               (Some http.StatusUnauthorized) [])
            (gin.abortIndex + 2),
          after_parse w (gin.Authorization r))
  /\ users (after_parse w (gin.Authorization r)) = users w.
Proof.
  refine (C5_gate_stops_chain 2 [GetUserHandler]
            (gin.mkRequest
               (issued (world_at alice_store (2000 * time.Second))
                  "alice" 1000)
               (gin.BindErr "EOF") [("username", "alice")])
            (world_at alice_store (2000 * time.Second))
            (jwt.mkValidationError
               (Some (jwt.ExpiredBy (1000 * time.Second)))
               jwt.ValidationErrorExpired EmptyString)
            _ _ _).
  - lia.
  - simpl. lia.
  - vm_compute. reflexivity.
Defined.

(** A request with a token that parses reaches the handler of the
    route. *)
Example gate_admits :
  let w := world_at alice_store (1700000000 * time.Second) in
  let r := gin.mkRequest (issued w "alice" 1700000600) (gin.BindErr "EOF")
             [("username", "alice")] in
  option_map (fun cw => reply (fst cw))
    (gin.ServeHTTP 3 [AuthMiddleware; GetUserHandler] r w)
  = Some (Some http.StatusOK,
          [OfUser (models.mkUser "alice" (password_field sha256.New "pw1"))]).
Proof. vm_compute. reflexivity. Qed.

(** ** The scenario of the specification

    Alice signs up; a second sign-up with her name is refused; she signs
    in; a sign-in with another password is refused; refreshing the token
    at once is too early. *)
Example scenario :
  let w0 := world_at [] (1700000000 * time.Second) in
  let w1 := world_at alice_store (1700000000 * time.Second) in
  let status (o : option (gin.Context * World)) :=
    match o with
    | Some (c, _) => fst (reply c)
    | None => None
    end in
  option_map (fun cw => users (snd cw))
    (SignUpHandler stop (gin.reset (credentials "alice" "pw1")) w0)
  = Some (users w1)
  /\ status (SignUpHandler stop (gin.reset (credentials "alice" "pw2")) w1)
     = Some http.StatusBadRequest
  /\ option_map (fun cw => snd (reply (fst cw)))
       (SignInHandler plain_marshal stop
          (gin.reset (credentials "alice" "pw1")) w1)
     = Some [OfJWTOutput
               (mkJWTOutput (issued w1 "alice" 1700000600)
                  (1700000600 * time.Second))]
  /\ status (SignInHandler plain_marshal stop
               (gin.reset (credentials "alice" "pw2")) w1)
     = Some http.StatusUnauthorized
  /\ status (RefreshHandler plain_marshal stop
               (gin.reset (bearer (issued w1 "alice" 1700000600))) (tick w1))
     = Some http.StatusBadRequest.
Proof.
  split; [vm_compute; reflexivity|].
  split; [vm_compute; reflexivity|].
  split; [vm_compute; reflexivity|].
  split; vm_compute; reflexivity.
Qed.

(** * More of the authentication handlers *)

(** ** Stored password fields *)

Lemma recover_password_field (password : string) :
  recover (password_field sha256.New password) = password.
Proof.
  unfold recover. rewrite password_field_New_length, password_field_New.
  replace (List.length (list_byte_of_string password) + sha256.Size
           - sha256.Size)%nat
    with (List.length (list_byte_of_string password) + 0)%nat by lia.
  rewrite firstn_app_2. simpl. rewrite app_nil_r.
  apply string_of_list_byte_of_string.
Qed.

Lemma password_field_inj (p q : string) :
  password_field sha256.New p = password_field sha256.New q -> p = q.
Proof.
  intros E. rewrite <- (recover_password_field p), E.
  apply recover_password_field.
Qed.

Lemma stored_inj (a b : models.User) : stored a = stored b -> a = b.
Proof.
  destruct a as [u p], b as [v q]. unfold stored. simpl.
  intros [= -> E]. apply password_field_inj in E. subst. reflexivity.
Qed.

(** X4: the password field that sign-up stores and sign-in looks up
    gives the password back: dropping its last 32 bytes returns the
    password, so different passwords have different fields. *)
Theorem X4_password_field_round_trip :
  (forall password : string,
     recover (password_field sha256.New password) = password)
  /\ (forall p q : string,
        password_field sha256.New p = password_field sha256.New q <-> p = q).
Proof.
  split; [exact recover_password_field|].
  intros p q. split; [apply password_field_inj | intros ->; reflexivity].
Qed.

(** ** Replies and single-handler chains *)

Lemma JSON_index (c : gin.Context) (code : Z) (obj : any) :
  gin.index (gin.JSON c code obj) = gin.index c.
Proof. unfold gin.JSON. destruct (gin.bodyAllowedForStatus code); reflexivity. Qed.

Lemma JSON_Req (c : gin.Context) (code : Z) (obj : any) :
  gin.Req (gin.JSON c code obj) = gin.Req c.
Proof. unfold gin.JSON. destruct (gin.bodyAllowedForStatus code); reflexivity. Qed.

(** The reply of [c.JSON] on a context whose writer is fresh. *)
Lemma reply_JSON (c : gin.Context) (code : Z) (obj : any) :
  gin.Writer c = gin.mkWriter http.StatusOK None [] ->
  0 < code -> gin.bodyAllowedForStatus code = true ->
  reply (gin.JSON c code obj) = (Some code, [obj]).
Proof.
  intros Hw Hpos Hbody. destruct c as [r wr i]. simpl in Hw. subst wr.
  unfold reply, gin.JSON. rewrite Hbody.
  unfold gin.Status, gin.WriteHeader, gin.with_writer.
  cbn [gin.Writer gin.status gin.sent gin.chunks gin.Req gin.index].
  destruct (Z.ltb_spec 0 code); [|lia].
  unfold http.StatusOK.
  destruct (Z.eqb_spec 200 code) as [<-|]; reflexivity.
Qed.

(** The header is written once: after [c.JSON] the engine's final
    [WriteHeaderNow] changes nothing. *)
Lemma WriteHeaderNow_JSON (c : gin.Context) (code : Z) (obj : any) :
  gin.WriteHeaderNow (gin.Writer (gin.JSON c code obj))
  = gin.Writer (gin.JSON c code obj).
Proof.
  unfold gin.JSON, gin.Status, gin.with_writer.
  cbn [gin.Writer gin.Req gin.index].
  generalize (gin.WriteHeader (gin.Writer c) code). intros [st [s|] ch];
    destruct (gin.bodyAllowedForStatus code); reflexivity.
Qed.

(** A chain of one handler that answers with [c.JSON]. *)
Lemma ServeHTTP_one (fuel : nat) (h : gin.HandlerFunc) (r : gin.Request)
    (w w1 : World) (code : Z) (obj : any) :
  h (gin.Next (S fuel) [h]) (gin.with_index (gin.reset r) 0) w
  = Some (gin.JSON (gin.with_index (gin.reset r) 0) code obj, w1) ->
  gin.ServeHTTP (S (S fuel)) [h] r w
  = Some (gin.with_index
            (gin.JSON (gin.with_index (gin.reset r) 0) code obj) 1, w1).
Proof.
  intros Hh. unfold gin.ServeHTTP, gin.Next.
  change (gin.with_index (gin.reset r) (gin.int8 (gin.index (gin.reset r) + 1)))
    with (gin.with_index (gin.reset r) 0).
  rewrite (run_step (S fuel) [h] (gin.with_index (gin.reset r) 0) w h);
    [|vm_compute; split; congruence | reflexivity].
  rewrite Hh. rewrite run_done.
  - unfold gin.with_writer, gin.with_index.
    cbn [gin.Writer gin.Req gin.index].
    rewrite WriteHeaderNow_JSON, JSON_index. reflexivity.
  - cbn [gin.with_index gin.index]. rewrite JSON_index.
    vm_compute. discriminate.
Qed.

(** A chain of the middleware and one handler, for a token that parses:
    the handler runs once, on the context the middleware received, in
    the world after the parser's clock reading. *)
Lemma ServeHTTP_passed (fuel : nat) (h : gin.HandlerFunc) (r : gin.Request)
    (w w1 : World) (c1 : gin.Context) :
  parse_error w (gin.Authorization r) = None ->
  h (gin.Next (S fuel) [AuthMiddleware; h]) (gin.with_index (gin.reset r) 1)
    (tick w) = Some (c1, w1) ->
  gin.index c1 = 1 ->
  gin.ServeHTTP (S (S (S fuel))) [AuthMiddleware; h] r w
  = Some (gin.with_writer (gin.with_index c1 3)
            (gin.WriteHeaderNow (gin.Writer c1)), w1).
Proof.
  intros Hp Hh Hi. unfold gin.ServeHTTP, gin.Next at 1.
  change (gin.with_index (gin.reset r) (gin.int8 (gin.index (gin.reset r) + 1)))
    with (gin.with_index (gin.reset r) 0).
  set (hs := [AuthMiddleware; h]).
  rewrite (run_step (S (S fuel)) hs (gin.with_index (gin.reset r) 0) w
             AuthMiddleware);
    [|vm_compute; split; congruence | reflexivity].
  rewrite (AuthMiddleware_admits (gin.Next (S (S fuel)) hs)
             (gin.with_index (gin.reset r) 0) w Hp).
  unfold gin.Next at 1.
  change (gin.with_index (gin.with_index (gin.reset r) 0)
            (gin.int8 (gin.index (gin.with_index (gin.reset r) 0) + 1)))
    with (gin.with_index (gin.reset r) 1).
  rewrite (run_step (S fuel) hs (gin.with_index (gin.reset r) 1) (tick w) h);
    [|vm_compute; split; congruence | reflexivity].
  subst hs. rewrite Hh.
  rewrite run_done;
    [|cbn [gin.with_index gin.index]; rewrite Hi; vm_compute; discriminate].
  rewrite run_done;
    [|cbn [gin.with_index gin.index]; rewrite Hi; vm_compute; discriminate].
  cbn [gin.with_index gin.with_writer gin.index gin.Req gin.Writer].
  rewrite Hi. reflexivity.
Qed.

(** ** Every outcome of the handlers *)

Lemma FindOne_credentials (coll : mongo.Collection) (u p : string) :
  mongo.Err (mongo.FindOne coll [("username", u); ("password", p)]) = None
  <-> In (models.mkUser u p) coll.
Proof.
  split.
  - destruct (mongo.FindOne _ _) as [doc|e] eqn:E; [|discriminate].
    intros _. apply FindOne_found in E. destruct E as [Hin Hm].
    rewrite matches_credentials in Hm. apply andb_prop in Hm.
    destruct Hm as [Hu Hp]. apply String.eqb_eq in Hu, Hp.
    destruct doc as [du dp]. simpl in Hu, Hp. subst. exact Hin.
  - intros Hin.
    destruct (FindOne_some coll [("username", u); ("password", p)] _ Hin)
      as [d Hd].
    + rewrite matches_credentials. simpl. rewrite !String.eqb_refl.
      reflexivity.
    + rewrite Hd. reflexivity.
Qed.

Section Outcomes.

Variable marshal : Claims -> list byte.

Lemma SignIn_answers (c : gin.Context) (w : World) :
  exists code obj w',
    (forall next, SignInHandler marshal next c w
                  = Some (gin.JSON c code obj, w'))
    /\ users w' = users w /\ environ w' = environ w
    /\ (code = 200 \/ code = 400 \/ code = 401)
    /\ (code = 200 <->
        exists user, gin.ShouldBindJSON c = gin.BindOk user
                     /\ In (stored user) (users w)).
Proof.
  unfold SignInHandler.
  destruct (gin.ShouldBindJSON c) as [user|e] eqn:Hb.
  - destruct (mongo.Err (mongo.FindOne (users w)
                [("username", models.Username user);
                 ("password",
                  password_field sha256.New (models.Password user))]))
      as [e|] eqn:Hf.
    + do 3 eexists. split; [intros next; reflexivity|].
      repeat split; auto; try discriminate.
      intros [user' [[= <-] Hin]].
      apply FindOne_credentials in Hin. unfold stored in Hin.
      congruence.
    + do 3 eexists. split; [intros next; reflexivity|].
      repeat split; auto.
      intros _. exists user. split; [reflexivity|].
      apply FindOne_credentials. exact Hf.
  - do 3 eexists. split; [intros next; reflexivity|].
    repeat split; auto; try discriminate.
    intros [user [Hbad _]]. discriminate.
Qed.

Lemma SignUp_answers (c : gin.Context) (w : World) :
  exists code obj w',
    (forall next, SignUpHandler next c w = Some (gin.JSON c code obj, w'))
    /\ environ w' = environ w
    /\ ((code = 200
         /\ exists user,
              gin.ShouldBindJSON c = gin.BindOk user
              /\ ~ In (models.Username user) (usernames (users w))
              /\ users w' = users w ++ [stored user]
              /\ obj = OfUser (stored user))
        \/ (code = 400 /\ w' = w)).
Proof.
  destruct (gin.ShouldBindJSON c) as [user|e] eqn:Hb.
  - destruct (in_dec string_dec (models.Username user) (usernames (users w)))
      as [Hin|Hnot].
    + do 3 eexists. split;
        [intros next; apply SignUp_taken with (user := user); assumption|].
      split; [reflexivity|]. right. split; reflexivity.
    + do 3 eexists. split;
        [intros next; apply SignUp_fresh with (user := user); assumption|].
      split; [reflexivity|]. left. split; [reflexivity|].
      exists user. repeat split. exact Hnot.
  - do 3 eexists. split;
      [intros next; unfold SignUpHandler; rewrite Hb; reflexivity|].
    split; [reflexivity|]. right. split; reflexivity.
Qed.

Lemma Refresh_rejects (next : gin.Step) (c : gin.Context) (w : World)
    (e : jwt.ValidationError) :
  parse_error w (gin.GetHeader_Authorization c) = Some e ->
  RefreshHandler marshal next c w
  = Some (gin.JSON c http.StatusUnauthorized (H_error (ParseError e)),
          after_parse w (gin.GetHeader_Authorization c)).
Proof.
  intros Hp. destruct (parse_error_Some _ _ _ Hp) as [tkn [Hparse _]].
  unfold RefreshHandler. rewrite Hparse. reflexivity.
Qed.

Lemma Refresh_answers (c : gin.Context) (w : World) :
  exists code msg w',
    (forall next, RefreshHandler marshal next c w
                  = Some (gin.JSON c code (H_error msg), w'))
    /\ users w' = users w /\ environ w' = environ w
    /\ (code = 400 \/ code = 401 \/ code = 500).
Proof.
  destruct (parse_error w (gin.GetHeader_Authorization c)) as [e|] eqn:Hp.
  - do 3 eexists. split; [intros next; apply Refresh_rejects; exact Hp|].
    destruct (after_parse_users w (gin.GetHeader_Authorization c)).
    repeat split; auto.
  - destruct (parse_error_None _ _ Hp) as [p [sg [sig [Ht _]]]].
    assert (He : embedded (gin.GetHeader_Authorization c) = Some p)
      by (rewrite Ht; reflexivity).
    destruct (30 * time.Second
              <? time.Unix (jwt.ExpiresAt (StandardClaims p)) 0
                 - clock w (S (ticks w))) eqn:Ht30.
    + do 3 eexists. split;
        [intros next; rewrite (Refresh_parsed marshal next c w p Hp He), Ht30;
         reflexivity|].
      repeat split; auto.
    + do 3 eexists. split;
        [intros next; rewrite (Refresh_parsed marshal next c w p Hp He), Ht30;
         reflexivity|].
      repeat split; auto.
Qed.

Lemma GetUser_answers (c : gin.Context) (w : World) :
  exists code obj,
    (forall next, GetUserHandler next c w = Some (gin.JSON c code obj, w))
    /\ (code = 200 \/ code = 404).
Proof.
  destruct (in_dec string_dec (gin.Param c "username") (usernames (users w)))
    as [Hin|Hnot].
  - destruct (GetUser_present stop c w Hin) as [doc [_ [_ E]]].
    exists 200, (OfUser doc). split; [|left; reflexivity].
    intros next. exact E.
  - do 2 eexists. split; [intros next; apply GetUser_absent; exact Hnot|].
    right. reflexivity.
Qed.

End Outcomes.

(** ** Sequences of requests *)

Section Sequences.

Variable marshal : Claims -> list byte.

Lemma reply_with_index (c : gin.Context) (i : Z) :
  reply (gin.with_index c i) = reply c.
Proof. reflexivity. Qed.

(** One request: it is answered, the environment is kept, and the
    collection gains the record of the credentials it registers, whose
    username was not in the collection. *)
Lemma serve_spec (fuel : nat) (a : api) (r : gin.Request) (w : World) :
  (3 <= fuel)%nat ->
  exists c w',
    serve marshal fuel a r w = Some (c, w')
    /\ environ w' = environ w
    /\ users w' = users w ++ map stored (registration (a, r) (reply c))
    /\ (forall user, In user (registration (a, r) (reply c)) ->
          ~ In (models.Username user) (usernames (users w))).
Proof.
  intros Hfuel. destruct fuel as [|[|[|fuel]]]; try lia.
  unfold serve. destruct a; cbn [chain].
  - destruct (SignIn_answers marshal (gin.with_index (gin.reset r) 0) w)
      as [code [obj [w' [Hrun [Hu [He _]]]]]].
    do 2 eexists. split; [apply ServeHTTP_one; apply Hrun|].
    split; [exact He|]. cbn [registration map]. rewrite app_nil_r.
    split; [exact Hu | intros user []].
  - destruct (SignUp_answers (gin.with_index (gin.reset r) 0) w)
      as [code [obj [w' [Hrun [He Hcases]]]]].
    do 2 eexists. split; [apply ServeHTTP_one; apply Hrun|].
    split; [exact He|]. rewrite reply_with_index.
    destruct Hcases as [[-> [user [Hb [Hfresh [Hu _]]]]] | [-> ->]].
    + rewrite reply_JSON by (reflexivity || lia).
      unfold registration. change (gin.ShouldBindJSON _) with (gin.Body r) in Hb.
      rewrite Hb. cbn [fst]. change (200 =? http.StatusOK) with true.
      cbv iota. split; [exact Hu|].
      intros u [<-|[]]. exact Hfresh.
    + rewrite reply_JSON by (reflexivity || lia).
      unfold registration. cbn [fst]. change (400 =? http.StatusOK) with false.
      destruct (gin.Body r); cbn [map]; rewrite app_nil_r;
        (split; [reflexivity | intros u []]).
  - destruct (Refresh_answers marshal (gin.with_index (gin.reset r) 0) w)
      as [code [msg [w' [Hrun [Hu [He _]]]]]].
    do 2 eexists. split; [apply ServeHTTP_one; apply Hrun|].
    split; [exact He|]. cbn [registration map]. rewrite app_nil_r.
    split; [exact Hu | intros user []].
  - destruct (parse_error w (gin.Authorization r)) as [e|] eqn:Hp.
    + do 2 eexists.
      split; [apply ServeHTTP_rejected with (e := e);
              [simpl; lia | exact Hp]|].
      destruct (after_parse_users w (gin.Authorization r)) as [Hu He].
      split; [exact He|]. cbn [registration map]. rewrite app_nil_r.
      split; [exact Hu | intros user []].
    + destruct (GetUser_answers (gin.with_index (gin.reset r) 1) (tick w))
        as [code [obj [Hrun _]]].
      do 2 eexists.
      split; [apply ServeHTTP_passed;
              [exact Hp | apply Hrun | apply JSON_index]|].
      split; [reflexivity|]. cbn [registration map]. rewrite app_nil_r.
      split; [reflexivity | intros user []].
Qed.

Lemma usernames_app (a b : mongo.Collection) :
  usernames (a ++ b) = usernames a ++ usernames b.
Proof. apply map_app. Qed.

(** A sequence of requests: every one is answered, and the collection at
    the end is the collection at the start followed by the records of
    the registered credentials, in order. *)
Lemma serve_all_spec (fuel : nat) (calls : list (api * gin.Request))
    (w : World) :
  (3 <= fuel)%nat ->
  exists replies w',
    serve_all marshal fuel calls w = Some (replies, w')
    /\ List.length replies = List.length calls
    /\ environ w' = environ w
    /\ users w' = users w ++ map stored (registrations calls replies)
    /\ (NoDup (usernames (users w)) -> NoDup (usernames (users w'))).
Proof.
  intros Hfuel. revert w.
  induction calls as [|[a r] calls IH]; intros w.
  - exists [], w. cbn. rewrite app_nil_r. repeat split; auto.
  - destruct (serve_spec fuel a r w Hfuel)
      as [c [w1 [Hrun [He1 [Hu1 Hfresh]]]]].
    destruct (IH w1) as [replies [w2 [Hall [Hlen [He2 [Hu2 Hnd2]]]]]].
    exists (reply c :: replies), w2. cbn [serve_all].
    rewrite Hrun, Hall.
    split; [reflexivity|].
    split; [simpl; rewrite Hlen; reflexivity|].
    split; [rewrite He2; exact He1|].
    split.
    + rewrite Hu2, Hu1. cbn [registrations].
      rewrite map_app, app_assoc. reflexivity.
    + intros Hnd. apply Hnd2. rewrite Hu1, usernames_app.
      assert (Hcases : registration (a, r) (reply c) = []
                       \/ exists user, registration (a, r) (reply c) = [user]).
      { unfold registration. destruct a; auto.
        destruct (gin.Body r); auto. destruct (fst (reply c)); auto.
        destruct (_ =? _); eauto. }
      destruct Hcases as [E | [user E]]; rewrite E in *.
      * cbn. rewrite app_nil_r. exact Hnd.
      * apply NoDup_app; [exact Hnd | repeat constructor; intros [] |].
        intros u Hin [<-|[]]. apply (Hfresh user); [left; reflexivity|].
        exact Hin.
Qed.

End Sequences.

(** X1: whatever requests are served on the four routes, in whatever
    order, a collection whose usernames are distinct keeps its usernames
    distinct (every request is answered, given fuel for the two nested
    calls of [c.Next]). *)
Theorem X1_usernames_stay_distinct (marshal : Claims -> list byte)
    (fuel : nat) (calls : list (api * gin.Request)) (w : World) :
  (3 <= fuel)%nat ->
  NoDup (usernames (users w)) ->
  exists replies w',
    serve_all marshal fuel calls w = Some (replies, w')
    /\ NoDup (usernames (users w')).
Proof.
  intros Hfuel Hnd.
  destruct (serve_all_spec marshal fuel calls w Hfuel)
    as [replies [w' [Hall [_ [_ [_ Hkeep]]]]]].
  exists replies, w'. split; [exact Hall | apply Hkeep; exact Hnd].
Qed.

Lemma X1_witness :
  exists replies w',
    serve_all plain_marshal 3 session (world_at [] 0) = Some (replies, w')
    /\ NoDup (usernames (users w')).
Proof.
  apply (X1_usernames_stay_distinct plain_marshal 3 session (world_at [] 0)).
  - lia.
  - constructor.
Defined.

(** X2: every sequence of requests on the four routes is answered in
    full, the environment is kept, and the collection at the end is the
    collection at the start followed by one record, username and
    password field, for each sign-up that was answered 200, in order of
    arrival: no record is changed or removed, and no other route adds
    one. *)
Theorem X2_collection_is_its_history (marshal : Claims -> list byte)
    (fuel : nat) (calls : list (api * gin.Request)) (w : World) :
  (3 <= fuel)%nat ->
  exists replies w',
    serve_all marshal fuel calls w = Some (replies, w')
    /\ List.length replies = List.length calls
    /\ environ w' = environ w
    /\ users w' = users w ++ map stored (registrations calls replies).
Proof.
  intros Hfuel.
  destruct (serve_all_spec marshal fuel calls w Hfuel)
    as [replies [w' [Hall [Hlen [He [Hu _]]]]]].
  exists replies, w'. repeat split; assumption.
Qed.

Lemma X2_witness :
  exists replies w',
    serve_all plain_marshal 3 session (world_at [] 0) = Some (replies, w')
    /\ List.length replies = List.length session
    /\ environ w' = environ (world_at [] 0)
    /\ users w'
       = users (world_at [] 0) ++ map stored (registrations session replies).
Proof.
  apply (X2_collection_is_its_history plain_marshal 3 session (world_at [] 0)).
  lia.
Defined.

(** X3: starting from an empty collection, after any sequence of
    requests a sign-in with a username and a password is answered 200
    exactly when a sign-up with that username and that password was
    answered 200 earlier in the sequence. *)
Theorem X3_signin_iff_registered (marshal : Claims -> list byte)
    (fuel : nat) (calls : list (api * gin.Request)) (w w' : World)
    (replies : list (option Z * list any)) (r : gin.Request)
    (user : models.User) :
  (3 <= fuel)%nat ->
  users w = [] ->
  serve_all marshal fuel calls w = Some (replies, w') ->
  gin.Body r = gin.BindOk user ->
  exists c w'',
    serve marshal fuel SignIn r w' = Some (c, w'')
    /\ (fst (reply c) = Some http.StatusOK
        <-> In user (registrations calls replies)).
Proof.
  intros Hfuel Hempty Hall Hb.
  destruct (serve_all_spec marshal fuel calls w Hfuel)
    as [replies0 [w0 [Hall0 [_ [_ [Hu _]]]]]].
  rewrite Hall in Hall0. injection Hall0 as <- <-.
  rewrite Hempty in Hu. cbn [app] in Hu.
  destruct fuel as [|[|[|fuel]]]; try lia.
  destruct (SignIn_answers marshal (gin.with_index (gin.reset r) 0) w')
    as [code [obj [w'' [Hrun [_ [_ [Hcode Hiff]]]]]]].
  do 2 eexists. split; [apply ServeHTTP_one; apply Hrun|].
  rewrite reply_with_index.
  rewrite reply_JSON
    by (reflexivity || (destruct Hcode as [-> | [-> | ->]]; reflexivity)).
  cbn [fst]. split.
  - intros [= ->]. destruct (proj1 Hiff eq_refl) as [user' [Hb' Hin]].
    change (gin.ShouldBindJSON _) with (gin.Body r) in Hb'.
    rewrite Hb in Hb'. injection Hb' as <-.
    rewrite Hu in Hin. apply in_map_iff in Hin.
    destruct Hin as [x [Hx Hin]]. apply stored_inj in Hx. subst x.
    exact Hin.
  - intros Hin. f_equal. apply Hiff. exists user. split; [exact Hb|].
    rewrite Hu. apply in_map. exact Hin.
Qed.

Lemma X3_witness :
  exists c w'',
    serve plain_marshal 3 SignIn (credentials "alice" "pw1")
      (world_at [stored (models.mkUser "alice" "pw1")] 0) = Some (c, w'')
    /\ (fst (reply c) = Some http.StatusOK
        <-> In (models.mkUser "alice" "pw1")
              (registrations [(SignUp, credentials "alice" "pw1")]
                 [(Some 200,
                   [OfUser (stored (models.mkUser "alice" "pw1"))])])).
Proof.
  apply (X3_signin_iff_registered plain_marshal 3
           [(SignUp, credentials "alice" "pw1")]
           (world_at [] 0)
           (world_at [stored (models.mkUser "alice" "pw1")] 0)
           [(Some 200, [OfUser (stored (models.mkUser "alice" "pw1"))])]
           (credentials "alice" "pw1") (models.mkUser "alice" "pw1")).
  - lia.
  - reflexivity.
  - vm_compute. reflexivity.
  - reflexivity.
Defined.

(** ** Refresh and the parser, further *)

(** X5: refresh never returns a token.  Whatever the request and the
    world, it answers 400, 401 or 500 with an error body and leaves the
    collection as it was: the signing step, reached only by a token in
    its last 30 seconds, is given the secret as a string and fails. *)
Theorem X5_refresh_never_issues (marshal : Claims -> list byte)
    (next : gin.Step) (r : gin.Request) (w : World) :
  exists c' w' code msg,
    RefreshHandler marshal next (gin.reset r) w = Some (c', w')
    /\ reply c' = (Some code, [H_error msg])
    /\ (code = 400 \/ code = 401 \/ code = 500)
    /\ users w' = users w.
Proof.
  destruct (Refresh_answers marshal (gin.reset r) w)
    as [code [msg [w' [Hrun [Hu [_ Hcode]]]]]].
  exists (gin.JSON (gin.reset r) code (H_error msg)), w', code, msg.
  split; [apply Hrun|].
  split; [|split; assumption].
  apply reply_JSON; [reflexivity | |];
    destruct Hcode as [-> | [-> | ->]]; reflexivity.
Qed.

(** X6: refresh of a token that does not parse (malformed, wrongly
    signed, or past its expiry) is answered 401 with the parser's error;
    the world changes at most by the parser's clock reading. *)
Theorem X6_refresh_rejects_unparsed (marshal : Claims -> list byte)
    (next : gin.Step) (r : gin.Request) (w : World)
    (e : jwt.ValidationError) :
  parse_error w (gin.Authorization r) = Some e ->
  responds (RefreshHandler marshal next (gin.reset r) w)
           http.StatusUnauthorized (H_error (ParseError e))
           (after_parse w (gin.Authorization r)).
Proof.
  intros Hp. eexists. split.
  - apply Refresh_rejects. exact Hp.
  - reflexivity.
Qed.

Lemma X6_witness :
  let w := world_at alice_store (2000 * time.Second) in
  let e := jwt.mkValidationError (Some (jwt.ExpiredBy (1000 * time.Second)))
             jwt.ValidationErrorExpired EmptyString in
  responds
    (RefreshHandler plain_marshal stop
       (gin.reset (bearer (issued w "alice" 1000))) w)
    http.StatusUnauthorized (H_error (ParseError e))
    (after_parse w (issued w "alice" 1000)).
Proof.
  refine (X6_refresh_rejects_unparsed plain_marshal stop
            (bearer (issued (world_at alice_store (2000 * time.Second))
                       "alice" 1000))
            (world_at alice_store (2000 * time.Second)) _ _).
  vm_compute. reflexivity.
Defined.

Lemma Bytes_eqb_neq (a b : list byte) : a <> b -> Bytes.eqb a b = false.
Proof.
  intros Hne. destruct (Bytes.eqb a b) eqn:E; [|reflexivity].
  exfalso. apply Hne. apply Bytes_eqb_eq. exact E.
Qed.

Lemma land_set_error (e : jwt.ValidationError) (inner : jwt.error)
    (flag : Z) :
  Z.land (jwt.Errors (jwt.set_error e inner flag)) flag = flag.
Proof.
  unfold jwt.set_error. simpl.
  rewrite Z.land_lor_distr_l, Z.land_diag.
  apply Z.bits_inj'. intros n Hn.
  rewrite Z.lor_spec, Z.land_spec.
  destruct (Z.testbit flag n);
    [apply orb_true_r | rewrite andb_false_r; reflexivity].
Qed.

(** X7: a token whose signature is not the MAC of its signed text under
    the secret is rejected by the parser with the SignatureInvalid bit,
    whatever its claims and its expiry. *)
Theorem X7_wrong_signature_rejected (w : World) (payload : Claims)
    (signed sig : list byte) :
  sig <> hmac.SumSHA256 (secret w) signed ->
  exists e,
    parse_error w (jwt.Compact payload signed sig) = Some e
    /\ Z.land (jwt.Errors e) jwt.ValidationErrorSignatureInvalid
       = jwt.ValidationErrorSignatureInvalid.
Proof.
  intros Hsig. unfold parse_error. rewrite ParseWithClaims_Compact.
  unfold hmac.Equal. rewrite (Bytes_eqb_neq _ _ Hsig), andb_false_r.
  eexists. split; [reflexivity|]. apply land_set_error.
Qed.

Lemma X7_witness :
  let w := world_at alice_store (1700000000 * time.Second) in
  exists e,
    parse_error w (forged w) = Some e
    /\ Z.land (jwt.Errors e) jwt.ValidationErrorSignatureInvalid
       = jwt.ValidationErrorSignatureInvalid.
Proof.
  refine (X7_wrong_signature_rejected
            (world_at alice_store (1700000000 * time.Second)) _ _ _ _).
  vm_compute. discriminate.
Defined.

(** ** The middleware, further *)

(** X8: on a route of the protected group, a request whose token parses
    reaches the handler of the route: the handler runs once, on the
    context as the engine reset it, in the world after the parser's
    clock reading, and its result is the result of the chain. *)
Theorem X8_gate_lets_through (fuel : nat) (h : gin.HandlerFunc) (r : gin.Request)
    (w w1 : World) (c1 : gin.Context) :
  (3 <= fuel)%nat ->
  parse_error w (gin.Authorization r) = None ->
  (forall next, h next (gin.with_index (gin.reset r) 1) (tick w)
                = Some (c1, w1)) ->
  gin.index c1 = 1 ->
  gin.ServeHTTP fuel [AuthMiddleware; h] r w
  = Some (gin.with_writer (gin.with_index c1 3)
            (gin.WriteHeaderNow (gin.Writer c1)), w1).
Proof.
  intros Hfuel Hp Hh Hi. destruct fuel as [|[|[|fuel]]]; try lia.
  apply ServeHTTP_passed; [exact Hp | apply Hh | exact Hi].
Qed.

Lemma X8_witness :
  let w := world_at alice_store (1700000000 * time.Second) in
  let r := gin.mkRequest (issued w "alice" 1700000600) (gin.BindErr "EOF")
             [("username", "alice")] in
  let c1 := gin.JSON (gin.with_index (gin.reset r) 1) http.StatusOK
              (OfUser (stored (models.mkUser "alice" "pw1"))) in
  gin.ServeHTTP 3 [AuthMiddleware; GetUserHandler] r w
  = Some (gin.with_writer (gin.with_index c1 3)
            (gin.WriteHeaderNow (gin.Writer c1)), tick w).
Proof.
  refine (X8_gate_lets_through 3 GetUserHandler
            (gin.mkRequest
               (issued (world_at alice_store (1700000000 * time.Second))
                  "alice" 1700000600)
               (gin.BindErr "EOF") [("username", "alice")])
            (world_at alice_store (1700000000 * time.Second)) _ _ _ _ _ _).
  - lia.
  - vm_compute. reflexivity.
  - intros next. vm_compute. reflexivity.
  - reflexivity.
Defined.

(** X9: a token whose expiry is set and lies before the second the
    parser reads is stopped by the middleware, whatever its signature and
    whatever handlers follow: the reply is 401 with no body. *)
Theorem X9_gate_rejects_expired (fuel : nat) (rest : list gin.HandlerFunc)
    (r : gin.Request) (w : World) (payload : Claims)
    (signed sig : list byte) :
  (2 <= fuel)%nat ->
  (List.length (AuthMiddleware :: rest) < 63)%nat ->
  gin.Authorization r = jwt.Compact payload signed sig ->
  jwt.ExpiresAt (StandardClaims payload) <> 0 ->
  jwt.ExpiresAt (StandardClaims payload)
  < time.ToUnix (clock w (ticks w)) ->
  gin.ServeHTTP fuel (AuthMiddleware :: rest) r w
  = Some (gin.mkContext r
            (gin.mkWriter http.StatusUnauthorized
               (Some http.StatusUnauthorized) [])
            (gin.abortIndex + 2), tick w).
Proof.
  intros Hfuel Hlen Ht Hz Hlt. destruct fuel as [|[|fuel]]; try lia.
  assert (Hc : claims_ok (StandardClaims payload)
                 (time.ToUnix (clock w (ticks w))) = false).
  { destruct (claims_ok _ _) eqn:E; [|reflexivity].
    apply claims_ok_spec in E. lia. }
  assert (Hparse : jwt.ParseWithClaims (gin.Authorization r) no_claims
                     (keyFunc w) w
                   = jwt.ParseWithClaims (jwt.Compact payload signed sig)
                       no_claims (keyFunc w) w) by (rewrite Ht; reflexivity).
  rewrite ParseWithClaims_Compact, Hc in Hparse. cbn [andb] in Hparse.
  cbv zeta in Hparse.
  replace (tick w) with (after_parse w (gin.Authorization r))
    by (unfold after_parse; rewrite Hparse; reflexivity).
  eapply ServeHTTP_rejected; [exact Hlen|].
  unfold parse_error. rewrite Hparse. reflexivity.
Qed.

Lemma X9_witness :
  let w := world_at alice_store (2000 * time.Second) in
  let r := gin.mkRequest (issued w "alice" 1000) (gin.BindErr "EOF")
             [("username", "alice")] in
  gin.ServeHTTP 2 [AuthMiddleware; GetUserHandler] r w
  = Some (gin.mkContext r
            (gin.mkWriter http.StatusUnauthorized
               (Some http.StatusUnauthorized) [])
            (gin.abortIndex + 2), tick w).
Proof.
  refine (X9_gate_rejects_expired 2 [GetUserHandler]
            (gin.mkRequest
               (issued (world_at alice_store (2000 * time.Second))
                  "alice" 1000)
               (gin.BindErr "EOF") [("username", "alice")])
            (world_at alice_store (2000 * time.Second)) _ _ _ _ _ _ _ _).
  - lia.
  - simpl. lia.
  - reflexivity.
  - vm_compute. discriminate.
  - vm_compute. reflexivity.
Defined.

(** ** Tokens of sign-in *)

Lemma secret_environ (w w2 : World) :
  environ w2 = environ w -> secret w2 = secret w.
Proof. unfold secret, os_Getenv. intros ->. reflexivity. Qed.

(** X10: a token returned by sign-in is accepted by the parser, in any
    later world with the same environment, up to and including the
    second of its expiry, and rejected after it (for an expiry second
    other than 0, which the parser reads as no expiry). *)
Theorem X10_issued_token_lifetime (marshal : Claims -> list byte)
    (next : gin.Step) (r : gin.Request) (w w' w2 : World)
    (c' : gin.Context) (o : JWTOutput) :
  SignInHandler marshal next (gin.reset r) w = Some (c', w') ->
  reply c' = (Some http.StatusOK, [OfJWTOutput o]) ->
  environ w2 = environ w ->
  time.ToUnix (Expires o) <> 0 ->
  (parse_error w2 (Token o) = None
   <-> time.ToUnix (clock w2 (ticks w2)) <= time.ToUnix (Expires o)).
Proof.
  intros Hrun Hreply Henv Hz.
  destruct (gin.Body r) as [user|e] eqn:Hb.
  - destruct (SignIn_outcome marshal next (gin.reset r) w user Hb)
      as [E | E]; rewrite E in Hrun; injection Hrun as <- <-;
      [discriminate Hreply|].
    rewrite reply_JSON in Hreply by (reflexivity || lia).
    injection Hreply as <-. cbn [Token Expires] in *.
    unfold parse_error. rewrite ParseWithClaims_Compact.
    rewrite (secret_environ w w2 Henv).
    unfold hmac.Equal. rewrite Bytes_eqb_refl, andb_true_r.
    cbn [StandardClaims]. unfold claims_ok. cbn [jwt.ExpiresAt jwt.IssuedAt
      jwt.NotBefore]. unfold jwt.verifyExp, jwt.verifyIat, jwt.verifyNbf.
    change (0 =? 0) with true. cbn [negb andb]. rewrite !andb_true_r.
    match goal with
    | |- context [?a =? 0] => destruct (Z.eqb_spec a 0); [contradiction|]
    end.
    match goal with
    | |- context [?a <=? ?b] => destruct (Z.leb_spec a b)
    end; cbn [snd fst]; split; intros H'; try reflexivity; try lia;
      discriminate.
  - unfold SignInHandler, gin.ShouldBindJSON in Hrun. simpl in Hrun.
    rewrite Hb in Hrun. injection Hrun as <- <-. discriminate Hreply.
Qed.

Lemma X10_witness :
  let w := world_at alice_store (1700000000 * time.Second) in
  let o := mkJWTOutput (issued w "alice" 1700000600)
             (1700000600 * time.Second) in
  parse_error (tick w) (Token o) = None
  <-> time.ToUnix (clock (tick w) (ticks (tick w)))
      <= time.ToUnix (Expires o).
Proof.
  refine (X10_issued_token_lifetime plain_marshal stop
            (credentials "alice" "pw1")
            (world_at alice_store (1700000000 * time.Second))
            (tick (world_at alice_store (1700000000 * time.Second)))
            (tick (world_at alice_store (1700000000 * time.Second)))
            (gin.JSON (gin.reset (credentials "alice" "pw1")) http.StatusOK
               (OfJWTOutput
                  (mkJWTOutput
                     (issued (world_at alice_store (1700000000 * time.Second))
                        "alice" 1700000600)
                     (1700000600 * time.Second))))
            _ _ _ _ _).
  - vm_compute. reflexivity.
  - vm_compute. reflexivity.
  - reflexivity.
  - vm_compute. discriminate.
Defined.

(** ** A process without the secret *)

Lemma lookup_env_unset (env : list (string * string)) (key : string) :
  ~ In key (map fst env) -> lookup_env env key = EmptyString.
Proof.
  induction env as [|[k v] env IH]; simpl; [reflexivity|].
  intros Hnot. destruct (String.eqb_spec k key) as [E|E].
  - exfalso. apply Hnot. left. exact E.
  - apply IH. intros Hin. apply Hnot. right. exact Hin.
Qed.

(** X11: when JWT_SECRET is not set the handlers do not fail: the key
    is the empty byte string.  Sign-in signs with it, and the parser
    accepts any three-segment HS256 token with valid claims whose
    signature is the MAC of its signed text under the empty key. *)
Theorem X11_unset_secret_is_empty_key (marshal : Claims -> list byte)
    (next : gin.Step) (r : gin.Request) (w : World) (user : models.User) :
  ~ In "JWT_SECRET" (map fst (environ w)) ->
  gin.Body r = gin.BindOk user ->
  In (stored user) (users w) ->
  (exists o payload signed,
     responds (SignInHandler marshal next (gin.reset r) w)
              http.StatusOK (OfJWTOutput o) (tick w)
     /\ Token o = jwt.Compact payload signed (hmac.SumSHA256 [] signed))
  /\ (forall payload signed,
        claims_ok (StandardClaims payload)
          (time.ToUnix (clock w (ticks w))) = true ->
        parse_error w (jwt.Compact payload signed (hmac.SumSHA256 [] signed))
        = None).
Proof.
  intros Hunset Hb Hin.
  assert (Hs : secret w = []).
  { unfold secret, os_Getenv. rewrite (lookup_env_unset _ _ Hunset).
    reflexivity. }
  split.
  - do 3 eexists. split; [eexists; split|].
    + apply SignIn_match with (user := user) (doc := stored user);
        [exact Hb | exact Hin | reflexivity | reflexivity].
    + reflexivity.
    + cbn [Token]. rewrite Hs. reflexivity.
  - intros payload signed Hc. unfold parse_error.
    rewrite ParseWithClaims_Compact, Hc, Hs.
    unfold hmac.Equal. rewrite Bytes_eqb_refl. reflexivity.
Qed.

Lemma X11_witness :
  let w := bare_world alice_store (1700000000 * time.Second) in
  (exists o payload signed,
     responds
       (SignInHandler plain_marshal stop
          (gin.reset (credentials "alice" "pw1")) w)
       http.StatusOK (OfJWTOutput o) (tick w)
     /\ Token o = jwt.Compact payload signed (hmac.SumSHA256 [] signed))
  /\ (forall payload signed,
        claims_ok (StandardClaims payload)
          (time.ToUnix (clock w (ticks w))) = true ->
        parse_error w (jwt.Compact payload signed (hmac.SumSHA256 [] signed))
        = None).
Proof.
  refine (X11_unset_secret_is_empty_key plain_marshal stop
            (credentials "alice" "pw1")
            (bare_world alice_store (1700000000 * time.Second))
            (models.mkUser "alice" "pw1") _ _ _).
  - simpl. intros [].
  - reflexivity.
  - left. reflexivity.
Defined.

(** ** Sign-up and lookup *)

Lemma find_app_none {A : Type} (f : A -> bool) (a b : list A) :
  (forall x, In x a -> f x = false) -> find f (a ++ b) = find f b.
Proof.
  induction a as [|x a IH]; simpl; intros H; [reflexivity|].
  rewrite (H x (or_introl eq_refl)). apply IH.
  intros y Hy. apply H. right. exact Hy.
Qed.

(** X12: after a sign-up that was answered 200, a lookup of the
    username, on that collection or on one with later records added, is
    answered 200 with the record sign-up stored: the username and the
    password field. *)
Theorem X12_signup_then_lookup (next1 next2 : gin.Step)
    (r1 r2 : gin.Request) (c1 : gin.Context) (w w1 w2 : World)
    (user : models.User) (more : mongo.Collection) :
  gin.Body r1 = gin.BindOk user ->
  SignUpHandler next1 (gin.reset r1) w = Some (c1, w1) ->
  fst (reply c1) = Some http.StatusOK ->
  users w2 = users w1 ++ more ->
  gin.Param (gin.reset r2) "username" = models.Username user ->
  responds (GetUserHandler next2 (gin.reset r2) w2) http.StatusOK
           (OfUser (stored user)) w2.
Proof.
  intros Hb Hup Hok Hext Hparam.
  destruct (in_dec string_dec (models.Username user) (usernames (users w)))
    as [Hin | Hnot].
  - rewrite (SignUp_taken next1 (gin.reset r1) w user Hb Hin) in Hup.
    injection Hup as <- _. discriminate Hok.
  - rewrite (SignUp_fresh next1 (gin.reset r1) w user Hb Hnot) in Hup.
    injection Hup as _ <-. simpl in Hext.
    assert (Hfind : mongo.FindOne (users w2)
                      [("username", models.Username user)]
                    = mongo.Found (stored user)).
    { unfold mongo.FindOne. rewrite Hext, <- app_assoc, find_app_none.
      - cbn [app find]. rewrite matches_username. cbn [models.Username].
        rewrite String.eqb_refl. reflexivity.
      - intros doc Hin. rewrite matches_username. apply String.eqb_neq.
        intros E. apply Hnot. rewrite <- E. apply in_map. exact Hin. }
    eexists. split.
    + unfold GetUserHandler. rewrite Hparam, Hfind. reflexivity.
    + reflexivity.
Qed.

Lemma X12_witness :
  responds
    (GetUserHandler stop (gin.reset (lookup "alice"))
       (world_at alice_store 0))
    http.StatusOK (OfUser (stored (models.mkUser "alice" "pw1")))
    (world_at alice_store 0).
Proof.
  refine (X12_signup_then_lookup stop stop
            (credentials "alice" "pw1") (lookup "alice")
            (gin.JSON (gin.reset (credentials "alice" "pw1")) http.StatusOK
               (OfUser (stored (models.mkUser "alice" "pw1"))))
            (world_at [] 0) (world_at alice_store 0) (world_at alice_store 0)
            (models.mkUser "alice" "pw1") [] _ _ _ _ _).
  - reflexivity.
  - vm_compute. reflexivity.
  - vm_compute. reflexivity.
  - vm_compute. reflexivity.
  - reflexivity.
Defined.

(** * The recipes handlers: properties *)

(** ** The cache *)

Lemma Get_Del (db : redis.DB) (key : string) :
  redis.Get (redis.Del db key) key = (EmptyString, Some redis.Nil).
Proof.
  induction db as [|[k v] db IH]; simpl; [reflexivity|].
  destruct (String.eqb_spec k key) as [E|E]; simpl; [exact IH|].
  destruct (String.eqb_spec k key); [contradiction | exact IH].
Qed.

(** The in-memory database fails in no other way than by an absent
    key. *)
Lemma Get_error (db : redis.DB) (key val : string) (e : redis.error) :
  redis.Get db key = (val, Some e) -> e = redis.Nil.
Proof.
  induction db as [|[k v] db IH]; simpl.
  - intros [= _ <-]. reflexivity.
  - destruct (String.eqb k key); [discriminate | exact IH].
Qed.

Lemma Get_Set (db : redis.DB) (key value : string) :
  redis.Get (redis.Set_ db key value) key = (value, None).
Proof. unfold redis.Set_. simpl. rewrite String.eqb_refl. reflexivity. Qed.

(** ** The collection of recipes *)

Lemma has_id_true (id : primitive.ObjectID) (r : Recipe) :
  recipesdb.has_id id r = true <-> ID r = id.
Proof.
  unfold recipesdb.has_id. split.
  - apply Bytes_eqb_eq.
  - intros ->. apply Bytes_eqb_refl.
Qed.

Lemma existsb_has_id (id : primitive.ObjectID) (coll : recipesdb.Collection) :
  existsb (recipesdb.has_id id) coll = false -> ~ In id (ids coll).
Proof.
  intros H Hin. apply in_map_iff in Hin. destruct Hin as [r [Hr Hin]].
  assert (E : existsb (recipesdb.has_id id) coll = true).
  { apply existsb_exists. exists r. split; [exact Hin|].
    apply has_id_true. exact Hr. }
  congruence.
Qed.

Lemma ids_update_first (id : primitive.ObjectID) (set : Recipe -> Recipe)
    (coll : recipesdb.Collection) :
  (forall r, ID (set r) = ID r) ->
  ids (recipesdb.update_first id set coll) = ids coll.
Proof.
  intros Hset. induction coll as [|r coll IH]; simpl; [reflexivity|].
  destruct (recipesdb.has_id id r); simpl; [rewrite Hset | rewrite IH];
    reflexivity.
Qed.

Lemma update_first_absent (id : primitive.ObjectID) (set : Recipe -> Recipe)
    (coll : recipesdb.Collection) :
  find (recipesdb.has_id id) coll = None ->
  recipesdb.update_first id set coll = coll.
Proof.
  induction coll as [|r coll IH]; simpl; [reflexivity|].
  destruct (recipesdb.has_id id r); [discriminate|].
  intros H. rewrite (IH H). reflexivity.
Qed.

Lemma update_first_others (id : primitive.ObjectID) (set : Recipe -> Recipe)
    (coll : recipesdb.Collection) (r : Recipe) :
  In r coll -> recipesdb.has_id id r = false ->
  In r (recipesdb.update_first id set coll).
Proof.
  induction coll as [|x coll IH]; simpl; [tauto|].
  intros [-> | Hin] Hr.
  - rewrite Hr. left. reflexivity.
  - destruct (recipesdb.has_id id x); right; [exact Hin | apply IH; assumption].
Qed.

Lemma delete_first_spec (id : primitive.ObjectID)
    (coll : recipesdb.Collection) :
  (find (recipesdb.has_id id) coll = None
   /\ recipesdb.delete_first id coll = (coll, 0))
  \/ (exists r before after,
        coll = before ++ r :: after
        /\ recipesdb.has_id id r = true
        /\ (forall x, In x before -> recipesdb.has_id id x = false)
        /\ recipesdb.delete_first id coll = (before ++ after, 1)).
Proof.
  induction coll as [|x coll IH]; simpl.
  - left. split; reflexivity.
  - destruct (recipesdb.has_id id x) eqn:Hx.
    + right. exists x, [], coll. repeat split; auto. intros y [].
    + destruct IH as [[Hnone Hdel] | [r [before [after [Hc [Hr [Hb Hdel]]]]]]];
        rewrite Hdel.
      * left. split; [exact Hnone | reflexivity].
      * right. exists r, (x :: before), after. subst coll.
        repeat split; auto.
        intros y [<- | Hy]; [exact Hx | apply Hb; exact Hy].
Qed.

Lemma filter_all_true {A : Type} (f : A -> bool) (l : list A) :
  (forall x, In x l -> f x = true) -> filter f l = l.
Proof.
  induction l as [|x l IH]; simpl; intros H; [reflexivity|].
  rewrite (H x (or_introl eq_refl)), IH; [reflexivity|].
  intros y Hy. apply H. right. exact Hy.
Qed.

(** With distinct identifiers, deleting the first recipe with an
    identifier leaves the recipes with another identifier. *)
Lemma delete_first_distinct (id : primitive.ObjectID)
    (coll : recipesdb.Collection) :
  NoDup (ids coll) ->
  fst (recipesdb.delete_first id coll)
  = filter (fun r => negb (recipesdb.has_id id r)) coll.
Proof.
  induction coll as [|x coll IH]; simpl; [reflexivity|].
  intros Hnd. inversion Hnd as [|? ? Hnotin Hnd']; subst.
  destruct (recipesdb.has_id id x) eqn:Hx; simpl.
  - symmetry. apply filter_all_true. intros y Hy.
    destruct (recipesdb.has_id id y) eqn:Hy'; [|reflexivity].
    exfalso. apply Hnotin. apply has_id_true in Hx, Hy'.
    rewrite Hx, <- Hy'. apply in_map. exact Hy.
  - specialize (IH Hnd').
    destruct (recipesdb.delete_first id coll) as [rest n]. simpl in *.
    rewrite IH. reflexivity.
Qed.

Lemma ids_delete_first (id : primitive.ObjectID)
    (coll : recipesdb.Collection) :
  NoDup (ids coll) -> NoDup (ids (fst (recipesdb.delete_first id coll))).
Proof.
  intros Hnd.
  destruct (delete_first_spec id coll)
    as [[_ E] | [r [before [after [Hc [_ [_ E]]]]]]]; rewrite E; simpl;
    [exact Hnd|].
  subst coll. unfold ids in *. rewrite map_app in *. simpl in Hnd.
  apply NoDup_remove_1 in Hnd. exact Hnd.
Qed.

(** ** What every recipes handler keeps *)

Section RecipesFacts.

Variable marshal : list Recipe -> string.
Variable unmarshal : string -> list Recipe.

Lemma coherent_cleared (k : Kitchen) (coll : recipesdb.Collection) :
  coherent marshal (clearRecipesFromRedis (with_collection k coll)).
Proof.
  unfold coherent, clearRecipesFromRedis, with_redis, with_collection.
  cbn [redisClient collection]. rewrite Get_Del. exact I.
Qed.

Lemma recipes_step (a : recipes_api) (c : RecipeRequest) (k : Kitchen) :
  let k' := snd (recipes_handler marshal unmarshal a c k) in
  (coherent marshal k -> coherent marshal k')
  /\ (NoDup (ids (collection k)) -> NoDup (ids (collection k'))).
Proof.
  destruct a; cbn [recipes_handler].
  - (* list *)
    unfold ListRecipesHandler, coherent.
    destruct (redis.Get (redisClient k) "recipes") as [val [[|msg]|]] eqn:Hg;
      cbn [snd]; split; auto.
    + intros _. unfold with_redis. cbn [redisClient collection].
      rewrite Get_Set. reflexivity.
    + rewrite Hg. auto.
    + rewrite Hg. auto.
  - (* new *)
    unfold NewRecipeHandler.
    destruct (rbody c) as [recipe|err]; cbn [snd]; [|split; auto].
    unfold NewObjectID, kitchen_Now, recipesdb.InsertOne.
    cbn [collection redisClient kclock kticks oids made ID].
    destruct (existsb (recipesdb.has_id (oids k (made k))) (collection k))
      eqn:Hex; cbn [snd].
    + split; auto.
    + split; [intros _; apply coherent_cleared|].
      intros Hnd. cbn [clearRecipesFromRedis with_redis with_collection
                         collection].
      unfold ids. rewrite map_app. cbn [map recipesdb.document ID].
      apply NoDup_app; [exact Hnd | repeat constructor; intros [] |].
      intros id Hin [<-|[]]. revert Hin. apply existsb_has_id. exact Hex.
  - (* search *)
    cbn [SearchRecipeHandler snd]. split; auto.
  - (* update *)
    unfold UpdateRecipeHandler.
    destruct (rbody c) as [recipe|err]; cbn [snd]; [|split; auto].
    destruct (primitive.ObjectIDFromHex (param_id c)) as [objectId e].
    cbn [recipesdb.UpdateOne snd].
    split; [intros _; apply coherent_cleared|].
    intros Hnd. cbn [clearRecipesFromRedis with_redis with_collection
                       collection].
    rewrite ids_update_first; [exact Hnd | reflexivity].
  - (* delete *)
    unfold DeleteRecipeHandler.
    destruct (primitive.ObjectIDFromHex (param_id c)) as [objectId e].
    unfold recipesdb.DeleteOne.
    pose proof (ids_delete_first objectId (collection k)) as Hids.
    destruct (delete_first_spec objectId (collection k))
      as [[_ E] | [r [before [after [_ [_ [_ E]]]]]]];
      rewrite E in *; cbn [fst snd] in *.
    + change (0 <? 0) with false. cbn [snd]. split; auto.
    + change (0 <? 1) with true. cbn [snd].
      split; [intros _; apply coherent_cleared | exact Hids].
  - (* get *)
    unfold GetRecipeHandler.
    destruct (primitive.ObjectIDFromHex (param_id c)) as [objectId e].
    destruct (recipesdb.FindOne (collection k) objectId) as [r|[|msg]];
      cbn [snd]; split; auto.
Qed.

Lemma cook_keeps (calls : list (recipes_api * RecipeRequest)) (k : Kitchen) :
  (coherent marshal k -> coherent marshal (cook marshal unmarshal calls k))
  /\ (NoDup (ids (collection k)) ->
      NoDup (ids (collection (cook marshal unmarshal calls k)))).
Proof.
  revert k. induction calls as [|[a c] calls IH]; intros k; cbn [cook].
  - split; auto.
  - destruct (recipes_step a c k) as [Hc Hn].
    destruct (IH (snd (recipes_handler marshal unmarshal a c k))) as [Hc' Hn'].
    split; auto.
Qed.

End RecipesFacts.

(** ** Identifiers in hexadecimal *)

Lemma hex_byte (b : byte) :
  primitive.hex_value (hex_digit (Bytes.to_Z b / 16))
  = Some (Bytes.to_Z b / 16)
  /\ primitive.hex_value (hex_digit (Bytes.to_Z b mod 16))
     = Some (Bytes.to_Z b mod 16)
  /\ Bytes.of_Z (16 * (Bytes.to_Z b / 16) + Bytes.to_Z b mod 16) = b.
Proof. destruct b; vm_compute; repeat split. Qed.

Lemma hex_decode_hex (bs : list byte) :
  primitive.hex_decode (hex bs) = Some bs.
Proof.
  induction bs as [|b bs IH]; [reflexivity|].
  cbn [hex primitive.hex_decode].
  destruct (hex_byte b) as [H1 [H2 H3]]. rewrite H1, H2, IH, H3.
  reflexivity.
Qed.

Lemma hex_length (bs : list byte) :
  String.length (hex bs) = (2 * List.length bs)%nat.
Proof.
  induction bs as [|b bs IH]; [reflexivity|].
  cbn [hex String.length List.length]. rewrite IH. lia.
Qed.

(** The hexadecimal form of a twelve-byte identifier reads back as the
    identifier. *)
Lemma ObjectIDFromHex_Hex (id : primitive.ObjectID) :
  List.length id = 12%nat ->
  primitive.ObjectIDFromHex (primitive.Hex id) = (id, None).
Proof.
  intros Hlen. unfold primitive.ObjectIDFromHex, primitive.Hex.
  rewrite hex_length, Hlen, hex_decode_hex. reflexivity.
Qed.

(** A string that is not 24 characters long reads as the nil
    identifier. *)
Lemma ObjectIDFromHex_short (s : string) :
  String.length s <> 24%nat ->
  fst (primitive.ObjectIDFromHex s) = primitive.NilObjectID.
Proof.
  intros Hlen. unfold primitive.ObjectIDFromHex.
  destruct (Nat.eqb_spec (String.length s) 24); [contradiction|reflexivity].
Qed.

(** ** The recipes handlers *)

(** X13: the cache never goes stale.  If the key "recipes" is absent or
    holds the serialisation of the collection, the same is true after
    any sequence of requests to the six recipes routes: every handler
    that changes the collection removes the key afterwards. *)
Theorem X13_cache_stays_coherent (marshal : list Recipe -> string)
    (unmarshal : string -> list Recipe)
    (calls : list (recipes_api * RecipeRequest)) (k : Kitchen) :
  coherent marshal k ->
  coherent marshal (cook marshal unmarshal calls k).
Proof. apply cook_keeps. Qed.

Lemma X13_witness :
  coherent plain_recipes_marshal
    (cook plain_recipes_marshal plain_recipes_unmarshal recipes_session
       (kitchen_at [pasta] 0)).
Proof.
  apply (X13_cache_stays_coherent plain_recipes_marshal
           plain_recipes_unmarshal recipes_session (kitchen_at [pasta] 0)).
  exact I.
Defined.

(** X14: after any sequence of requests that started with a coherent
    cache, the list route answers 200 with the collection as it is at
    that moment, whether it reads the collection or the cache (provided
    the JSON of that collection decodes to it), and a list request does
    not change the collection. *)
Theorem X14_list_serves_collection (marshal : list Recipe -> string)
    (unmarshal : string -> list Recipe)
    (calls : list (recipes_api * RecipeRequest)) (k : Kitchen)
    (c : RecipeRequest) :
  coherent marshal k ->
  let k1 := cook marshal unmarshal calls k in
  unmarshal (marshal (collection k1)) = collection k1 ->
  fst (ListRecipesHandler marshal unmarshal c k1)
  = (http.StatusOK, R_recipes (collection k1))
  /\ collection (snd (ListRecipesHandler marshal unmarshal c k1))
     = collection k1.
Proof.
  intros Hco k1 Hrt.
  assert (Hk1 : coherent marshal k1) by (apply cook_keeps; exact Hco).
  clearbody k1. unfold coherent in Hk1. unfold ListRecipesHandler.
  destruct (redis.Get (redisClient k1) "recipes") as [val [e|]] eqn:Hg.
  - rewrite (Get_error _ _ _ _ Hg). cbn [fst snd]. split; reflexivity.
  - cbn [fst snd]. rewrite Hk1, Hrt. split; reflexivity.
Qed.

Lemma X14_witness :
  let k1 := cook plain_recipes_marshal plain_recipes_unmarshal
              [(ListRecipes, some_recipe_request)] (kitchen_at [pasta] 0) in
  fst (ListRecipesHandler plain_recipes_marshal plain_recipes_unmarshal
         some_recipe_request k1)
  = (http.StatusOK, R_recipes (collection k1))
  /\ collection
       (snd (ListRecipesHandler plain_recipes_marshal plain_recipes_unmarshal
               some_recipe_request k1))
     = collection k1.
Proof.
  refine (X14_list_serves_collection plain_recipes_marshal
            plain_recipes_unmarshal [(ListRecipes, some_recipe_request)]
            (kitchen_at [pasta] 0) some_recipe_request _ _).
  - exact I.
  - vm_compute. reflexivity.
Defined.

(** X15: the identifiers of the collection stay distinct through any
    sequence of requests to the recipes routes: an insertion with an
    identifier already present is refused, an update keeps the
    identifier, a deletion only removes. *)
Theorem X15_recipe_ids_stay_distinct (marshal : list Recipe -> string)
    (unmarshal : string -> list Recipe)
    (calls : list (recipes_api * RecipeRequest)) (k : Kitchen) :
  NoDup (ids (collection k)) ->
  NoDup (ids (collection (cook marshal unmarshal calls k))).
Proof. apply cook_keeps. Qed.

Lemma X15_witness :
  NoDup (ids (collection
                (cook plain_recipes_marshal plain_recipes_unmarshal
                   recipes_session (kitchen_at [pasta] 0)))).
Proof.
  apply (X15_recipe_ids_stay_distinct plain_recipes_marshal
           plain_recipes_unmarshal recipes_session (kitchen_at [pasta] 0)).
  simpl. constructor; [intros [] | constructor].
Defined.

(** X16: a recipe that the create route answered 200 with can be read
    back: a get with the hexadecimal form of its identifier, on the
    kitchen the create left, answers 200 with the same recipe, its time
    of publication rounded down to the millisecond (the identifier and
    the time are the server's, not the body's). *)
Theorem X16_create_then_get (c c' : RecipeRequest) (k k' : Kitchen)
    (recipe : Recipe) :
  List.length (oids k (made k)) = 12%nat ->
  NewRecipeHandler c k = (http.StatusOK, R_recipe recipe, k') ->
  param_id c' = primitive.Hex (ID recipe) ->
  GetRecipeHandler c' k'
  = (http.StatusOK, R_recipe (recipesdb.document recipe), k')
  /\ ID recipe = oids k (made k)
  /\ PublishedAt recipe = kclock k (kticks k)
  /\ PublishedAt (recipesdb.document recipe) <= PublishedAt recipe
     < PublishedAt (recipesdb.document recipe) + 1000000.
Proof.
  intros Hlen Hnew Hparam. unfold NewRecipeHandler in Hnew.
  destruct (rbody c) as [body|err]; [|discriminate].
  unfold NewObjectID, kitchen_Now, recipesdb.InsertOne in Hnew.
  cbn [collection redisClient kclock kticks oids made ID] in Hnew.
  destruct (existsb (recipesdb.has_id (oids k (made k))) (collection k))
    eqn:Hex; [discriminate|].
  injection Hnew as <- <-.
  cbn [ID PublishedAt recipesdb.document] in *.
  split; [|split; [reflexivity|split; [reflexivity|]]].
  - unfold GetRecipeHandler. rewrite Hparam, (ObjectIDFromHex_Hex _ Hlen).
    unfold recipesdb.FindOne.
    cbn [clearRecipesFromRedis with_redis with_collection collection].
    rewrite find_app_none.
    + cbn [find]. unfold recipesdb.has_id, recipesdb.document. cbn [ID].
      rewrite Bytes_eqb_refl. reflexivity.
    + intros x Hx. destruct (recipesdb.has_id (oids k (made k)) x) eqn:E;
        [|reflexivity].
      assert (existsb (recipesdb.has_id (oids k (made k))) (collection k)
              = true) by (apply existsb_exists; exists x; auto).
      congruence.
  - unfold recipesdb.datetime.
    pose proof (Z.div_mod (kclock k (kticks k)) 1000000 ltac:(lia)).
    pose proof (Z.mod_pos_bound (kclock k (kticks k)) 1000000 ltac:(lia)).
    lia.
Qed.

Lemma X16_witness :
  let k := kitchen_at [] 1700000000123456789 in
  let recipe :=
    mkRecipe (oid_of 0) "pasta" ["italian"; "quick"] ["spaghetti"; "salt"]
             ["boil"; "serve"] 1700000000123456789 in
  let k' := snd (NewRecipeHandler some_recipe_request k) in
  GetRecipeHandler some_recipe_request k'
  = (http.StatusOK, R_recipe (recipesdb.document recipe), k')
  /\ ID recipe = oids k (made k)
  /\ PublishedAt recipe = kclock k (kticks k)
  /\ PublishedAt (recipesdb.document recipe) <= PublishedAt recipe
     < PublishedAt (recipesdb.document recipe) + 1000000.
Proof.
  refine (X16_create_then_get some_recipe_request some_recipe_request
            (kitchen_at [] 1700000000123456789)
            (snd (NewRecipeHandler some_recipe_request
                    (kitchen_at [] 1700000000123456789)))
            (mkRecipe (oid_of 0) "pasta" ["italian"; "quick"]
               ["spaghetti"; "salt"] ["boil"; "serve"] 1700000000123456789)
            _ _ _).
  - reflexivity.
  - vm_compute. reflexivity.
  - reflexivity.
Defined.

Lemma find_has_id_none (id : primitive.ObjectID)
    (coll : recipesdb.Collection) :
  ~ In id (ids coll) -> find (recipesdb.has_id id) coll = None.
Proof.
  intros Hnot. destruct (find (recipesdb.has_id id) coll) as [r|] eqn:E;
    [|reflexivity].
  apply find_some in E. destruct E as [Hin Hr]. exfalso. apply Hnot.
  apply has_id_true in Hr. rewrite <- Hr. apply in_map. exact Hin.
Qed.

Lemma find_has_id_some (id : primitive.ObjectID)
    (coll : recipesdb.Collection) :
  In id (ids coll) ->
  exists r, find (recipesdb.has_id id) coll = Some r
            /\ In r coll /\ ID r = id.
Proof.
  intros Hin. apply in_map_iff in Hin. destruct Hin as [x [Hx Hin]].
  destruct (find (recipesdb.has_id id) coll) as [r|] eqn:E.
  - exists r. apply find_some in E. destruct E as [Hr Hid].
    apply has_id_true in Hid. auto.
  - pose proof (find_none _ _ E x Hin) as Hf.
    apply has_id_true in Hx. congruence.
Qed.

Lemma times_update_first (id : primitive.ObjectID) (set : Recipe -> Recipe)
    (coll : recipesdb.Collection) :
  (forall r, PublishedAt (set r) = PublishedAt r) ->
  map PublishedAt (recipesdb.update_first id set coll)
  = map PublishedAt coll.
Proof.
  intros Hset. induction coll as [|r coll IH]; simpl; [reflexivity|].
  destruct (recipesdb.has_id id r); simpl; [rewrite Hset | rewrite IH];
    reflexivity.
Qed.

(** X17: an update whose body binds is answered 200 "Recipe has been
    updated" whether or not a recipe has the identifier.  The collection
    keeps its identifiers and times of publication, in order; every
    recipe with another identifier stays as it is; and when no recipe
    has the identifier (as for an id that is not hexadecimal, read as
    the nil identifier) the collection is unchanged. *)
Theorem X17_update_keeps_the_rest (c : RecipeRequest) (k : Kitchen)
    (body : Recipe) :
  rbody c = RecipeOk body ->
  let oid := fst (primitive.ObjectIDFromHex (param_id c)) in
  let coll' := collection (snd (UpdateRecipeHandler c k)) in
  fst (UpdateRecipeHandler c k)
  = (http.StatusOK, R_message "Recipe has been updated")
  /\ ids coll' = ids (collection k)
  /\ map PublishedAt coll' = map PublishedAt (collection k)
  /\ (forall r, In r (collection k) -> ID r <> oid -> In r coll')
  /\ (~ In oid (ids (collection k)) -> coll' = collection k).
Proof.
  intros Hb oid coll'. subst oid coll'. unfold UpdateRecipeHandler.
  rewrite Hb.
  destruct (primitive.ObjectIDFromHex (param_id c)) as [objectId e].
  cbn [recipesdb.UpdateOne fst snd clearRecipesFromRedis with_redis
         with_collection collection].
  split; [reflexivity|].
  split; [apply ids_update_first; reflexivity|].
  split; [apply times_update_first; reflexivity|].
  split.
  - intros r Hin Hne. apply update_first_others; [exact Hin|].
    destruct (recipesdb.has_id objectId r) eqn:E; [|reflexivity].
    apply has_id_true in E. contradiction.
  - intros Hnot. apply update_first_absent. apply find_has_id_none.
    exact Hnot.
Qed.

Lemma X17_witness :
  let c := mkRecipeRequest (RecipeOk pasta) "no-such-id" "" in
  let k := kitchen_at [pasta] 0 in
  let oid := fst (primitive.ObjectIDFromHex (param_id c)) in
  let coll' := collection (snd (UpdateRecipeHandler c k)) in
  fst (UpdateRecipeHandler c k)
  = (http.StatusOK, R_message "Recipe has been updated")
  /\ ids coll' = ids (collection k)
  /\ map PublishedAt coll' = map PublishedAt (collection k)
  /\ (forall r, In r (collection k) -> ID r <> oid -> In r coll')
  /\ (~ In oid (ids (collection k)) -> coll' = collection k).
Proof.
  refine (X17_update_keeps_the_rest
            (mkRecipeRequest (RecipeOk pasta) "no-such-id" "")
            (kitchen_at [pasta] 0) pasta _).
  reflexivity.
Defined.

(** X18: a delete is always answered 200.  On a collection with
    distinct identifiers it leaves exactly the recipes with another
    identifier, in order; the message is "Recipe has been deleted" when
    a recipe had the identifier and "No recipes have been deleted", with
    the kitchen untouched, when none had. *)
Theorem X18_delete_removes_by_id (c : RecipeRequest) (k : Kitchen) :
  NoDup (ids (collection k)) ->
  let oid := fst (primitive.ObjectIDFromHex (param_id c)) in
  collection (snd (DeleteRecipeHandler c k))
  = filter (fun r => negb (recipesdb.has_id oid r)) (collection k)
  /\ (In oid (ids (collection k)) ->
      fst (DeleteRecipeHandler c k)
      = (http.StatusOK, R_message "Recipe has been deleted"))
  /\ (~ In oid (ids (collection k)) ->
      fst (DeleteRecipeHandler c k)
      = (http.StatusOK, R_message "No recipes have been deleted")
      /\ collection (snd (DeleteRecipeHandler c k)) = collection k
      /\ redisClient (snd (DeleteRecipeHandler c k)) = redisClient k).
Proof.
  intros Hnd oid. subst oid. unfold DeleteRecipeHandler.
  destruct (primitive.ObjectIDFromHex (param_id c)) as [objectId e].
  unfold recipesdb.DeleteOne. cbn [fst].
  pose proof (delete_first_distinct objectId (collection k) Hnd) as Hfilter.
  destruct (delete_first_spec objectId (collection k))
    as [[Hnone E] | [r [before [after [Hc [Hr [_ E]]]]]]];
    rewrite E in *; cbn [fst snd] in *.
  - change (0 <? 0) with false. cbn [fst snd with_collection collection
                                       redisClient].
    split; [exact Hfilter|]. split.
    + intros Hin. destruct (find_has_id_some _ _ Hin) as [x [Hx _]].
      congruence.
    + intros _. repeat split.
  - change (0 <? 1) with true.
    cbn [fst snd clearRecipesFromRedis with_redis with_collection
           collection].
    split; [exact Hfilter|]. split; [reflexivity|].
    intros Hnot. exfalso. apply Hnot. apply has_id_true in Hr.
    rewrite <- Hr, Hc. unfold ids. rewrite map_app. apply in_or_app.
    right. left. reflexivity.
Qed.

Lemma X18_witness :
  let c := mkRecipeRequest (RecipeErr "EOF") (primitive.Hex (oid_of 7)) "" in
  let k := kitchen_at [pasta] 0 in
  let oid := fst (primitive.ObjectIDFromHex (param_id c)) in
  collection (snd (DeleteRecipeHandler c k))
  = filter (fun r => negb (recipesdb.has_id oid r)) (collection k)
  /\ (In oid (ids (collection k)) ->
      fst (DeleteRecipeHandler c k)
      = (http.StatusOK, R_message "Recipe has been deleted"))
  /\ (~ In oid (ids (collection k)) ->
      fst (DeleteRecipeHandler c k)
      = (http.StatusOK, R_message "No recipes have been deleted")
      /\ collection (snd (DeleteRecipeHandler c k)) = collection k
      /\ redisClient (snd (DeleteRecipeHandler c k)) = redisClient k).
Proof.
  refine (X18_delete_removes_by_id
            (mkRecipeRequest (RecipeErr "EOF") (primitive.Hex (oid_of 7)) "")
            (kitchen_at [pasta] 0) _).
  simpl. constructor; [intros [] | constructor].
Defined.

(** X19: a get is answered 200 with a recipe of the identifier when the
    collection has one, and otherwise 500, not 404, with the error
    "No match was found for ID" followed by the id as it was given; it
    never changes the kitchen. *)
Theorem X19_get_by_id (c : RecipeRequest) (k : Kitchen) :
  let oid := fst (primitive.ObjectIDFromHex (param_id c)) in
  (In oid (ids (collection k)) ->
   exists r, In r (collection k) /\ ID r = oid
             /\ GetRecipeHandler c k = (http.StatusOK, R_recipe r, k))
  /\ (~ In oid (ids (collection k)) ->
      GetRecipeHandler c k
      = (http.StatusInternalServerError,
         R_error ("No match was found for ID " ++ param_id c)%string, k)).
Proof.
  intros oid. subst oid. unfold GetRecipeHandler, recipesdb.FindOne.
  destruct (primitive.ObjectIDFromHex (param_id c)) as [objectId e].
  cbn [fst]. split.
  - intros Hin. destruct (find_has_id_some _ _ Hin) as [r [Hf [Hr Hid]]].
    exists r. rewrite Hf. auto.
  - intros Hnot. rewrite (find_has_id_none _ _ Hnot). reflexivity.
Qed.

(** X20: a recipe that the create route answered 200 with is found by a
    search for any of its tags, on the kitchen the create left, and
    every recipe a search returns carries the tag searched for. *)
Theorem X20_create_then_search (c c' : RecipeRequest) (k k' : Kitchen)
    (recipe : Recipe) :
  NewRecipeHandler c k = (http.StatusOK, R_recipe recipe, k') ->
  In (query_tag c') (Tags recipe) ->
  exists found,
    SearchRecipeHandler c' k' = (http.StatusOK, R_recipes found, k')
    /\ In (recipesdb.document recipe) found
    /\ (forall r, In r found -> In (query_tag c') (Tags r)).
Proof.
  intros Hnew Htag. unfold NewRecipeHandler in Hnew.
  destruct (rbody c) as [body|err]; [|discriminate].
  unfold NewObjectID, kitchen_Now, recipesdb.InsertOne in Hnew.
  cbn [collection redisClient kclock kticks oids made ID] in Hnew.
  destruct (existsb (recipesdb.has_id (oids k (made k))) (collection k));
    [discriminate|].
  injection Hnew as <- <-.
  eexists. split; [reflexivity|].
  cbn [clearRecipesFromRedis with_redis with_collection collection].
  unfold recipesdb.Find_tag. split.
  - apply filter_In. split.
    + apply in_or_app. right. left. reflexivity.
    + apply existsb_exists. exists (query_tag c'). split; [exact Htag|].
      apply String.eqb_refl.
  - intros r Hr. apply filter_In in Hr. destruct Hr as [_ Hr].
    apply existsb_exists in Hr. destruct Hr as [t [Hin Ht]].
    apply String.eqb_eq in Ht. subst t. exact Hin.
Qed.

Lemma X20_witness :
  let k := kitchen_at [] 1700000000123456789 in
  let recipe :=
    mkRecipe (oid_of 0) "pasta" ["italian"; "quick"] ["spaghetti"; "salt"]
             ["boil"; "serve"] 1700000000123456789 in
  let k' := snd (NewRecipeHandler some_recipe_request k) in
  exists found,
    SearchRecipeHandler some_recipe_request k'
    = (http.StatusOK, R_recipes found, k')
    /\ In (recipesdb.document recipe) found
    /\ (forall r, In r found -> In (query_tag some_recipe_request) (Tags r)).
Proof.
  refine (X20_create_then_search some_recipe_request some_recipe_request
            (kitchen_at [] 1700000000123456789)
            (snd (NewRecipeHandler some_recipe_request
                    (kitchen_at [] 1700000000123456789)))
            (mkRecipe (oid_of 0) "pasta" ["italian"; "quick"]
               ["spaghetti"; "salt"] ["boil"; "serve"] 1700000000123456789)
            _ _).
  - vm_compute. reflexivity.
  - right. left. reflexivity.
Defined.
